(** * The timespan metric of glean.js

    A shallow embedding of [glean/src/core/metrics/types/timespan.ts]:
    the [TimespanMetric] value class (validator and payload conversion) and
    the [TimespanMetricType] recorder (the tasks dispatched by [start],
    [stop], [cancel] and the test-only read-back).

    Conventions of the embedding.
    - A JavaScript [number] is a rational [Q].  The products and quotients
      of the payload conversion are rounded to the nearest double
      ([binary64]), as the code computes them; comparisons are exact, and so
      is the difference of two clock readings, which is the double difference
      for whole milliseconds.  [NaN], the infinities and the sign of zero are
      outside the model.
    - A plain object is a finite map from property names to values.
    - Code that may throw returns a [Completion]. *)

From Stdlib Require Import QArith Qround Qabs Qpower Lqa.
From stdpp Require Import base option list gmap strings pretty.

Local Open Scope string_scope.

(** ** JavaScript values *)

#[warnings="-register-all"]
Inductive JSValue : Type :=
| JUndefined
| JNull
| JBoolean (b : bool)
| JNumber (n : Q)
| JString (s : string)
| JArray (l : list JSValue)
| JObject (o : gmap string JSValue).

(** Normal return or a thrown [Error] with its message. *)
Inductive Completion (A : Type) : Type :=
| Normal (a : A)
| Throw (message : string).
Arguments Normal {A} a.
Arguments Throw {A} message.

#[global] Instance Completion_ret : MRet Completion := fun A a => Normal a.

#[global] Instance Completion_bind : MBind Completion := fun A B k c =>
  match c with
  | Normal a => k a
  | Throw e => Throw e
  end.

(** ** [time_unit.ts] *)

Inductive TimeUnit : Type :=
| Nanosecond | Microsecond | Millisecond | Second | Minute | Hour | Day.

(** Modelled from the spec: [time_unit.ts] is not among the sources.  The
    spec gives the closed enumeration of seven members and says that the
    persisted [timeUnit] field is a string, one of the seven enumerated
    values; the string carried by each member is its lower-case name.  The
    development only uses that the seven strings are pairwise distinct. *)
Definition TimeUnit_value (u : TimeUnit) : string :=
  match u with
  | Nanosecond => "nanosecond"
  | Microsecond => "microsecond"
  | Millisecond => "millisecond"
  | Second => "second"
  | Minute => "minute"
  | Hour => "hour"
  | Day => "day"
  end.

Definition TimeUnit_members : list TimeUnit :=
  [Nanosecond; Microsecond; Millisecond; Second; Minute; Hour; Day].

(** [Object.values(TimeUnit)] *)
Definition Object_values_TimeUnit : list string :=
  map TimeUnit_value TimeUnit_members.

(** ** [utils.ts] *)

(** Modelled from the spec: [utils.ts] is not among the sources.  The spec's
    validator speaks of a structured object, a string and a number; these are
    the corresponding type guards on [JSValue] (arrays and [null] are not
    plain objects). *)
Definition isObject (v : JSValue) : bool :=
  match v with JObject _ => true | _ => false end.

Definition isString (v : JSValue) : bool :=
  match v with JString _ => true | _ => false end.

Definition isNumber (v : JSValue) : bool :=
  match v with JNumber _ => true | _ => false end.

Definition isUndefined {A : Type} (v : option A) : bool :=
  match v with None => true | Some _ => false end.

(** ** Language primitives used by the validator *)

(** [Object.keys(v)]: the own property names of an object, the indices of an
    array or a string, nothing for the other primitives; throws on
    [undefined] and [null]. *)
Definition Object_keys (v : JSValue) : Completion (list string) :=
  match v with
  | JObject o => Normal (map fst (map_to_list o))
  | JArray l => Normal (map pretty (seq 0 (length l)))
  | JString s => Normal (map pretty (seq 0 (String.length s)))
  | JUndefined | JNull => Throw "TypeError: Cannot convert undefined or null to object"
  | JBoolean _ | JNumber _ => Normal []
  end.

(** [k in v]: throws when the right-hand side is not an object. *)
Definition js_in (k : string) (v : JSValue) : Completion bool :=
  match v with
  | JObject o => Normal (bool_decide (is_Some (o !! k)))
  | JArray _ => Normal false
  | _ => Throw "TypeError: Cannot use 'in' operator"
  end.

(** [v.k] on a value that is known to be an object; a missing property reads
    as [undefined]. *)
Definition js_get (k : string) (v : JSValue) : JSValue :=
  match v with
  | JObject o => default JUndefined (o !! k)
  | _ => JUndefined
  end.

(** [l.includes(v)] for an array of strings. *)
Definition includes (l : list string) (v : JSValue) : bool :=
  match v with
  | JString s => existsb (String.eqb s) l
  | _ => false
  end.

(** [v >= 0] on a value known to be a number. *)
Definition js_ge0 (v : JSValue) : bool :=
  match v with
  | JNumber n => Qle_bool 0 n
  | _ => false
  end.

(** ** [TimespanMetric] *)

(** [x < y] on numbers. *)
Definition Qlt_bool (x y : Q) : bool := negb (Qle_bool y x).

(** *** Arithmetic in doubles *)

(** The nearest integer, a tie going to the even one. *)
Definition ties_even (x : Q) : Z :=
  let f := Qfloor x in
  match Qcompare (x - inject_Z f) (1 # 2) with
  | Lt => f
  | Gt => (f + 1)%Z
  | Eq => if Z.even f then f else (f + 1)%Z
  end.

(** The exponent of a positive number: [2 ^ ilog2 q <= q < 2 ^ (ilog2 q + 1)]. *)
Definition ilog2 (q : Q) : Z :=
  let e := (Z.log2 (Qnum q) - Z.log2 (Zpos (Qden q)))%Z in
  if Qle_bool (2 ^ e) q then e else (e - 1)%Z.

(** The exponent of the last of the 53 bits of a double near [q]; doubles
    below [2 ^ -1022] share the spacing [2 ^ -1074]. *)
Definition ulp_exp (q : Q) : Z := (Z.max (ilog2 (Qabs q)) (-1022) - 52)%Z.

(** Rounding to the nearest IEEE 754 double, ties to even, which is what
    every arithmetic operation on JavaScript numbers does with its exact
    result.  A result beyond the largest double, where JavaScript has
    [Infinity], is rounded as if the exponent were unbounded. *)
Definition binary64 (q : Q) : Q :=
  if Qeq_bool q 0 then 0%Q
  else (inject_Z (ties_even (q / 2 ^ ulp_exp q)) * 2 ^ ulp_exp q)%Q.

(** [a * b] and [a / b] on numbers. *)
Definition js_mul (a b : Q) : Q := binary64 (a * b).
Definition js_div (a b : Q) : Q := binary64 (a / b).

(** [Math.round(x)]: the nearest integer, a tie going towards plus infinity. *)
Definition Math_round (x : Q) : Q := inject_Z (Qfloor (x + (1 # 2))).

(** Truthiness, as tested by [if (value)]. *)
Definition truthy (v : JSValue) : bool :=
  match v with
  | JUndefined | JNull => false
  | JBoolean b => b
  | JNumber n => negb (Qeq_bool n 0)
  | JString s => negb (String.eqb s "")
  | JArray _ | JObject _ => true
  end.

(** Reading a property at its declared type: the value of [v.timespan] as a
    [number] and of [v.timeUnit] as a member of [TimeUnit]. *)
Definition as_number (v : JSValue) : option Q :=
  match v with JNumber n => Some n | _ => None end.

Definition as_TimeUnit (v : JSValue) : option TimeUnit :=
  match v with
  | JString s => find (fun u => String.eqb s (TimeUnit_value u)) TimeUnit_members
  | _ => None
  end.

Module TimespanMetric.

(** The class has the single field [_inner], inherited from [Metric]. *)
Record t : Type := mk { _inner : JSValue }.

(** [validate(v)] with JavaScript's short-circuit evaluation of [||] and
    [&&]: the right operand is only evaluated when the left one lets it. *)
Definition validate (v : JSValue) : Completion bool :=
  wrong_shape ←
    (if negb (isObject v) then Normal true
     else keys ← Object_keys v; Normal (negb (length keys =? 2)%nat));
  if (wrong_shape : bool) then Normal false
  else
    timeUnitVerification ←
      (has ← js_in "timeUnit" v;
       Normal (has && isString (js_get "timeUnit" v)
                   && includes Object_values_TimeUnit (js_get "timeUnit" v)));
    timespanVerification ←
      (has ← js_in "timespan" v;
       Normal (has && isNumber (js_get "timespan" v)
                   && js_ge0 (js_get "timespan" v)));
    if negb timeUnitVerification || negb timespanVerification
    then Normal false
    else Normal true.

(** Modelled from the spec: the base class [Metric] of [metric.ts] is not
    among the sources.  By the spec (sections 4.3 and 9) constructing a value
    validates the raw value and fails, by throwing, when it is not valid;
    a valid raw value is kept as it is. *)
Definition new (v : JSValue) : Completion t :=
  ok ← validate v;
  if (ok : bool) then Normal (mk v)
  else Throw "Unable to create new Metric instance, values is in unexpected format.".

(** Modelled from the spec: [Metric.get] of [metric.ts], the stored
    representation of a metric value. *)
Definition get (m : t) : JSValue := _inner m.

(** [payload()].  The switch has no default: [None] is the [undefined] of
    falling through it, which by the static type of [_inner] cannot happen. *)
Definition payload (m : t) : option Q :=
  timespan ← as_number (js_get "timespan" (_inner m));
  match as_TimeUnit (js_get "timeUnit" (_inner m)) with
  | Some Nanosecond => Some (js_mul timespan (10 ^ 6)%Q)
  | Some Microsecond => Some (js_mul timespan (10 ^ 3)%Q)
  | Some Millisecond => Some timespan
  | Some Second => Some (Math_round (js_div timespan 1000))
  | Some Minute => Some (Math_round (js_div (js_div timespan 1000) 60))
  | Some Hour => Some (Math_round (js_div (js_div (js_div timespan 1000) 60) 60))
  | Some Day =>
      Some (Math_round (js_div (js_div (js_div (js_div timespan 1000) 60) 60) 24))
  | None => None
  end.

End TimespanMetric.

(** ** [TimespanMetricType] *)

Module TimespanMetricType.

(** The fields of the metric: [disabled] and [sendInPings] come from
    [CommonMetricData], [timeUnit] is fixed by the constructor and
    [startTime] is [undefined] while the metric is idle.  The field
    [timeUnit] has its declared type: the constructor takes a string and
    casts it without a check, and a metric made with a string that is not a
    member of [TimeUnit] is outside the model. *)
Record t : Type := mk {
  disabled : bool;
  sendInPings : list string;
  timeUnit : TimeUnit;
  startTime : option Q;
}.

Definition set_startTime (st : option Q) (m : t) : t :=
  mk (disabled m) (sendInPings m) (timeUnit m) st.

(** Modelled from the spec: [MetricType.shouldRecord] of [metrics/index.ts]
    is not among the sources.  A metric records when collection is enabled
    and the metric itself is not disabled. *)
Definition shouldRecord (m : t) (uploadEnabled : bool) : bool :=
  uploadEnabled && negb (disabled m).

End TimespanMetricType.

(** ** The program state seen by the dispatched tasks *)

Record World : Type := mkWorld {
  this : TimespanMetricType.t;
  (** [Context.uploadEnabled] *)
  uploadEnabled : bool;
  (** [Context.metricsDatabase]: the stored value of this metric, by ping *)
  metricsDatabase : gmap string JSValue;
  (** the lines written with [console.error], oldest first *)
  console : list string;
}.

Definition set_this_startTime (st : option Q) (w : World) : World :=
  mkWorld (TimespanMetricType.set_startTime st (this w))
          (uploadEnabled w) (metricsDatabase w) (console w).

Definition set_uploadEnabled (b : bool) (w : World) : World :=
  mkWorld (this w) b (metricsDatabase w) (console w).

Definition set_metricsDatabase (db : gmap string JSValue) (w : World) : World :=
  mkWorld (this w) (uploadEnabled w) db (console w).

Definition console_error (line : string) (w : World) : World :=
  mkWorld (this w) (uploadEnabled w) (metricsDatabase w) (console w ++ [line]).

(** The state a running [stop] task works on: the world and the task's local
    variable [reportValueExists], which the merge function closes over. *)
Record Frame : Type := mkFrame {
  world : World;
  reportValueExists : bool;
}.

Definition set_world (w : World) (f : Frame) : Frame :=
  mkFrame w (reportValueExists f).

Definition set_reportValueExists (b : bool) (f : Frame) : Frame :=
  mkFrame (world f) b.

(** Modelled from the spec: [Context.metricsDatabase] ([database.ts]) is not
    among the sources.  [transform] fetches the current raw value of the
    metric for a destination (or absent, [undefined]), applies the merge
    function and persists the stored representation of its result; it does
    so for each destination of the metric.  [getMetric] is a read-only
    fetch. *)
Fixpoint transform_pings
    (transformFn : JSValue -> Frame -> Completion TimespanMetric.t * Frame)
    (pings : list string) (f : Frame) : Completion unit * Frame :=
  match pings with
  | [] => (Normal tt, f)
  | ping :: rest =>
      let current := default JUndefined (metricsDatabase (world f) !! ping) in
      match transformFn current f with
      | (Normal m, f') =>
          let db := <[ping := TimespanMetric.get m]> (metricsDatabase (world f')) in
          transform_pings transformFn rest (set_world (set_metricsDatabase db (world f')) f')
      | (Throw e, f') => (Throw e, f')
      end
  end.

Definition transform (metric : TimespanMetricType.t)
    (transformFn : JSValue -> Frame -> Completion TimespanMetric.t * Frame)
    (f : Frame) : Completion unit * Frame :=
  transform_pings transformFn (TimespanMetricType.sendInPings metric) f.

Definition getMetric (ping : option string) (w : World) : JSValue :=
  default JUndefined (p ← ping; metricsDatabase w !! p).

Module Task.
Import TimespanMetricType.

(** The task dispatched by [start()]; [startTime] is the clock reading taken
    by the caller before the task was dispatched. *)
Definition start (startTime : Q) (w : World) : World :=
  if negb (shouldRecord (this w) (uploadEnabled w)) then w
  else if negb (isUndefined (TimespanMetricType.startTime (this w))) then
    console_error "Timespan already started." w
  else set_this_startTime (Some startTime) w.

(** The merge function built by [stop()]: [old] is the current stored value. *)
Definition transformFn (elapsed : Q) (old : JSValue) (f : Frame)
    : Completion TimespanMetric.t * Frame :=
  match TimespanMetric.new old with
  | Normal metric => (Normal metric, set_reportValueExists true f)
  | Throw _ =>
      (TimespanMetric.new
         (JObject {[ "timespan" := JNumber elapsed;
                     "timeUnit" := JString (TimeUnit_value (timeUnit (this (world f)))) ]}),
       f)
  end.

(** The task dispatched by [stop()]; [stopTime] is the caller's clock
    reading.  The elapsed time is the exact difference of the two readings,
    which is the difference of doubles the code computes whenever the
    readings are whole milliseconds below [2 ^ 53]. *)
Definition stop (stopTime : Q) (w : World) : Completion unit * World :=
  if negb (shouldRecord (this w) (uploadEnabled w)) then
    (Normal tt, set_this_startTime None w)
  else
    match TimespanMetricType.startTime (this w) with
    | None => (Normal tt, console_error "Timespan not running." w)
    | Some started =>
        let elapsed := (stopTime - started)%Q in
        let w := set_this_startTime None w in
        if Qlt_bool elapsed 0 then
          (Normal tt, console_error "Timespan was negative." w)
        else
          match transform (this w) (transformFn elapsed) (mkFrame w false) with
          | (Normal _, f) =>
              if reportValueExists f then
                (Normal tt,
                 console_error "Timespan value already recorded. New value discarded."
                               (world f))
              else (Normal tt, world f)
          | (Throw e, f) => (Throw e, world f)
          end
    end.

(** The task dispatched by [cancel()]. *)
Definition cancel (w : World) : World := set_this_startTime None w.

(** [testGetValue(ping)]; [None] for [ping] is the omitted argument, which
    defaults to [this.sendInPings[0]], and the [None] it returns is
    [undefined]. *)
Definition testGetValue (ping : option string) (w : World)
    : Completion (option Q) * World :=
  let ping := match ping with
              | Some p => Some p
              | None => head (sendInPings (this w))
              end in
  let value := getMetric ping w in
  if truthy value then
    (m ← TimespanMetric.new value; Normal (TimespanMetric.payload m), w)
  else (Normal None, w).

End Task.

(** Modelled from the spec: the dispatcher ([Context.dispatcher]) is not among
    the sources.  Tasks run to completion one at a time, in the order they
    were submitted, and the caller does not observe how a task completes; a
    run of calls is therefore the composition of their tasks. *)
Definition launch (task : World -> Completion unit * World) (w : World) : World :=
  snd (task w).

Definition start (now : Q) (w : World) : World := Task.start now w.
Definition stop (now : Q) (w : World) : World := launch (Task.stop now) w.
Definition cancel (w : World) : World := Task.cancel w.


(** ** Notions of the specification *)

(** The spec's description of a well-formed record (its section 4.4), with the
    field names of [TimespanInternalRepresentation]. *)
Definition DurationRecord_shape (v : JSValue) : Prop :=
  exists o : gmap string JSValue,
    v = JObject o /\ size o = 2%nat /\
    (exists u, o !! "timeUnit" = Some (JString (TimeUnit_value u))) /\
    (exists n, o !! "timespan" = Some (JNumber n) /\ (0 <= n)%Q).

(** The raw value of a record with the given unit and milliseconds, as the
    object literal of [stop] writes it. *)
Definition record (u : TimeUnit) (ms : Q) : JSValue :=
  JObject {[ "timespan" := JNumber ms; "timeUnit" := JString (TimeUnit_value u) ]}.

(** A plain object whose own properties are exactly [names]. *)
Definition has_exactly_fields (names : gset string) (v : JSValue) : Prop :=
  exists o : gmap string JSValue, v = JObject o /\ dom o = names.

(** The magnitude of a record is the number under the property [name]. *)
Definition magnitude_under (name : string) (v : JSValue) : Prop :=
  exists n : Q, js_get name v = JNumber n /\ (0 <= n)%Q.

(** [z] is the integer nearest to [q], the upper one when [q] lies half way
    between two integers. *)
Definition nearest_integer (q : Q) (z : Z) : Prop :=
  (q - (1 # 2) < inject_Z z)%Q /\ (inject_Z z <= q + (1 # 2))%Q.

(** The conversion table of the spec (its section 4.5): [p] is the payload of
    a record of [ms] milliseconds with unit [u]. *)
Definition conversion (u : TimeUnit) (ms p : Q) : Prop :=
  match u with
  | Nanosecond => (p == ms * 1000000)%Q
  | Microsecond => (p == ms * 1000)%Q
  | Millisecond => (p == ms)%Q
  | Second => exists z, p = inject_Z z /\ nearest_integer (ms / 1000) z
  | Minute => exists z, p = inject_Z z /\ nearest_integer (ms / 60000) z
  | Hour => exists z, p = inject_Z z /\ nearest_integer (ms / 3600000) z
  | Day => exists z, p = inject_Z z /\ nearest_integer (ms / 86400000) z
  end.

(** The largest double, [(2 ^ 53 - 1) * 2 ^ 971]. *)
Definition max_double : Q := inject_Z ((2 ^ 53 - 1) * 2 ^ 971).

(** The conversion as the code computes it, in doubles: the products are
    rounded to a double, as long as they do not exceed the largest double
    (beyond it the code has [Infinity], which the model has not), and the
    coarser units divide in turn by 1000, 60, 60 and 24, each quotient
    rounded to a double, before the nearest integer is taken. *)
Definition conversion_in_doubles (u : TimeUnit) (ms p : Q) : Prop :=
  match u with
  | Nanosecond => (ms * 1000000 <= max_double)%Q -> (p == js_mul ms 1000000)%Q
  | Microsecond => (ms * 1000 <= max_double)%Q -> (p == js_mul ms 1000)%Q
  | Millisecond => (p == ms)%Q
  | Second => exists z, p = inject_Z z /\ nearest_integer (js_div ms 1000) z
  | Minute =>
      exists z, p = inject_Z z /\ nearest_integer (js_div (js_div ms 1000) 60) z
  | Hour =>
      exists z, p = inject_Z z /\
        nearest_integer (js_div (js_div (js_div ms 1000) 60) 60) z
  | Day =>
      exists z, p = inject_Z z /\
        nearest_integer (js_div (js_div (js_div (js_div ms 1000) 60) 60) 24) z
  end.

(** The destination [testGetValue] reads: its argument, or the first of
    [sendInPings] when the argument is omitted. *)
Definition read_ping (ping : option string) (w : World) : option string :=
  match ping with
  | Some p => Some p
  | None => head (TimespanMetricType.sendInPings (this w))
  end.

(** The value stored for a destination, [undefined] when there is none. *)
Definition stored (ping : string) (w : World) : JSValue :=
  getMetric (Some ping) w.

(** What [transform] leaves in the database [db'] when it started from [db]
    and the merge function offers [rec] for the destinations [pings]. *)
Definition merged (rec : JSValue) (pings : list string)
    (db db' : gmap string JSValue) : Prop :=
  (forall ping, ping ∈ pings ->
     TimespanMetric.validate (default JUndefined (db' !! ping)) = Normal true) /\
  (forall ping, TimespanMetric.validate (default JUndefined (db !! ping)) = Normal true ->
     db' !! ping = db !! ping) /\
  (forall ping, ping ∈ pings ->
     TimespanMetric.validate (default JUndefined (db !! ping)) <> Normal true ->
     db' !! ping = Some rec) /\
  (forall ping, ping ∉ pings -> db' !! ping = db !! ping).

(** Worlds used in the examples: a millisecond metric sent in two pings, idle
    with collection enabled; the same metric running since 100 with
    collection switched off. *)
Definition example_metric (startTime : option Q) : TimespanMetricType.t :=
  TimespanMetricType.mk false ["metrics"; "baseline"] Millisecond startTime.

Definition example_idle : World := mkWorld (example_metric None) true ∅ [].

Definition example_running_disabled : World :=
  mkWorld (example_metric (Some 100%Q)) false ∅ [].

Definition example_running : World :=
  mkWorld (example_metric (Some 100%Q)) true ∅ [].

(** ** Callers *)

(** A call of a public method of the metric, with the clock reading
    ([getMonotonicNow()]) the method takes before it dispatches its task, or
    a change of [Context.uploadEnabled] made by the embedding application. *)
Inductive Call : Type :=
| CallStart (now : Q)
| CallStop (now : Q)
| CallCancel
| SetUploadEnabled (b : bool).

Definition call (c : Call) (w : World) : World :=
  match c with
  | CallStart now => start now w
  | CallStop now => stop now w
  | CallCancel => cancel w
  | SetUploadEnabled b => set_uploadEnabled b w
  end.

(** A caller's program: its calls take effect in the order they are made. *)
Fixpoint run (calls : list Call) (w : World) : World :=
  match calls with
  | [] => w
  | c :: rest => run rest (call c w)
  end.

(** The clock readings of a program never go back, starting from [prev]. *)
Fixpoint clock_monotone (prev : Q) (calls : list Call) : Prop :=
  match calls with
  | [] => True
  | CallStart now :: rest | CallStop now :: rest =>
      (prev <= now)%Q /\ clock_monotone now rest
  | _ :: rest => clock_monotone prev rest
  end.

(** The milliseconds in one unit. *)
Definition unit_millis (u : TimeUnit) : Q :=
  match u with
  | Nanosecond => 1 # 1000000
  | Microsecond => 1 # 1000
  | Millisecond => 1
  | Second => 1000
  | Minute => 60000
  | Hour => 3600000
  | Day => 86400000
  end.

(** What the calls may do to the world: the configuration of the metric
    stays, a valid stored record stays, a destination the metric is not sent
    in stays, and a stored value that changes becomes a record of the
    metric's unit with a timespan that is not negative. *)
Definition evolves (w w' : World) : Prop :=
  TimespanMetricType.disabled (this w') = TimespanMetricType.disabled (this w) /\
  TimespanMetricType.sendInPings (this w') = TimespanMetricType.sendInPings (this w) /\
  TimespanMetricType.timeUnit (this w') = TimespanMetricType.timeUnit (this w) /\
  (forall ping, TimespanMetric.validate (stored ping w) = Normal true ->
     metricsDatabase w' !! ping = metricsDatabase w !! ping) /\
  (forall ping, ping ∉ TimespanMetricType.sendInPings (this w) ->
     metricsDatabase w' !! ping = metricsDatabase w !! ping) /\
  (forall ping,
     metricsDatabase w' !! ping = metricsDatabase w !! ping \/
     exists ms, (0 <= ms)%Q /\
       metricsDatabase w' !! ping
       = Some (record (TimespanMetricType.timeUnit (this w)) ms)).

(** ** The validator *)

Section Validator.
Import TimespanMetric.

Lemma includes_TimeUnit_true v :
  includes Object_values_TimeUnit v = true <-> exists u, v = JString (TimeUnit_value u).
Proof.
  split.
  - destruct v as [| | | |s| |]; simpl; try discriminate.
    rewrite !orb_true_iff. rewrite !String.eqb_eq.
    intros H.
    repeat (destruct H as [H|H];
            [subst s;
             first [ by exists Nanosecond | by exists Microsecond
                   | by exists Millisecond | by exists Second
                   | by exists Minute | by exists Hour | by exists Day ] |]).
    discriminate H.
  - intros [u ->]. by destruct u.
Qed.

Lemma TimeUnit_value_inj u1 u2 : TimeUnit_value u1 = TimeUnit_value u2 -> u1 = u2.
Proof. destruct u1, u2; simpl; intros H; first [reflexivity | discriminate H]. Qed.

Lemma validate_object (o : gmap string JSValue) :
  validate (JObject o) =
  Normal (bool_decide (size o = 2%nat)
          && (bool_decide (is_Some (o !! "timeUnit"))
              && isString (js_get "timeUnit" (JObject o))
              && includes Object_values_TimeUnit (js_get "timeUnit" (JObject o)))
          && (bool_decide (is_Some (o !! "timespan"))
              && isNumber (js_get "timespan" (JObject o))
              && js_ge0 (js_get "timespan" (JObject o)))).
Proof.
  unfold validate. cbn [isObject negb Object_keys mbind Completion_bind js_in].
  rewrite length_map, length_map_to_list.
  destruct (Nat.eqb_spec (size o) 2) as [Hs|Hs].
  - rewrite (bool_decide_eq_true_2 _ Hs). cbn [negb andb].
    destruct (_ && _ && _); cbn [negb orb andb]; [|done].
    by destruct (_ && _ && _).
  - by rewrite (bool_decide_eq_false_2 _ Hs).
Qed.

Lemma validate_not_object v : isObject v = false -> validate v = Normal false.
Proof. by destruct v. Qed.

Lemma validate_total v : validate v = Normal true \/ validate v = Normal false.
Proof.
  destruct (isObject v) eqn:Hv.
  - destruct v; try discriminate Hv. rewrite validate_object.
    destruct (_ && _ && _); auto.
  - right. by apply validate_not_object.
Qed.

Lemma validate_not_true v : validate v <> Normal true -> validate v = Normal false.
Proof. destruct (validate_total v); [done | auto]. Qed.

Lemma validate_true_shape v : validate v = Normal true <-> DurationRecord_shape v.
Proof.
  split.
  - destruct (isObject v) eqn:Hv.
    + destruct v as [| | | | | |o]; try discriminate Hv. rewrite validate_object.
      intros [= H]. apply andb_prop in H as [H Hts]. apply andb_prop in H as [Hsz Htu].
      apply andb_prop in Htu as [_ Htu]. apply andb_prop in Hts as [_ Hts].
      apply bool_decide_eq_true in Hsz.
      apply includes_TimeUnit_true in Htu as [u Hu].
      exists o. split; [done|]. split; [done|].
      cbn [js_get] in Hu, Hts. split.
      * exists u. destruct (o !! "timeUnit") as [x|]; simpl in Hu;
          [by rewrite Hu | discriminate Hu].
      * destruct (o !! "timespan") as [[]|]; simpl in Hts; try discriminate Hts.
        eexists. split; [done|]. by apply Qle_bool_iff.
    + rewrite (validate_not_object v Hv). discriminate.
  - intros (o & -> & Hsz & [u Hu] & [n [Hn Hpos]]).
    rewrite validate_object. cbn [js_get]. rewrite Hu, Hn. cbn [default isString isNumber js_ge0].
    rewrite (bool_decide_eq_true_2 _ Hsz).
    rewrite !bool_decide_eq_true_2 by eauto.
    rewrite (proj2 (includes_TimeUnit_true _)) by eauto.
    cbn [id isString isNumber js_ge0 andb].
    by rewrite (proj2 (Qle_bool_iff 0 n) Hpos).
Qed.

(** A map with two entries is determined by two of its lookups. *)
Lemma map_two_entries {A} (o : gmap string A) a b x y :
  a <> b -> size o = 2%nat -> o !! a = Some x -> o !! b = Some y ->
  o = {[ a := x; b := y ]}.
Proof.
  intros Hab Hsz Ha Hb.
  rewrite <- (insert_delete_id o a x Ha). f_equal.
  assert (Hb' : delete a o !! b = Some y) by by rewrite lookup_delete_ne.
  assert (Hsz' : size (delete a o) = 1%nat)
    by (rewrite map_size_delete_Some by eauto; by rewrite Hsz).
  rewrite <- (insert_delete_id _ b y Hb'). rewrite <- insert_empty. f_equal.
  apply map_size_empty_inv.
  rewrite map_size_delete_Some by eauto. by rewrite Hsz'.
Qed.

Lemma record_shape u ms : (0 <= ms)%Q -> DurationRecord_shape (record u ms).
Proof.
  intros Hms. eexists. split; [done|]. split; [done|]. split; [by exists u|].
  exists ms. by split.
Qed.

Lemma validate_record u ms : (0 <= ms)%Q -> validate (record u ms) = Normal true.
Proof. intros. by apply validate_true_shape, record_shape. Qed.

Lemma validate_true_record v :
  validate v = Normal true -> exists u ms, v = record u ms /\ (0 <= ms)%Q.
Proof.
  intros (o & -> & Hsz & [u Hu] & [n [Hn Hpos]])%validate_true_shape.
  exists u, n. split; [|done]. unfold record. f_equal.
  by apply map_two_entries.
Qed.

Lemma new_valid v : validate v = Normal true -> new v = Normal (mk v).
Proof. unfold new. by intros ->. Qed.

Lemma new_invalid v : validate v <> Normal true -> exists e, new v = Throw e.
Proof. intros H%validate_not_true. unfold new. rewrite H. by eexists. Qed.

End Validator.

(** [C3] The validator accepts exactly the plain objects with two
    properties whose [timeUnit] is the string of one of the seven units and
    whose [timespan] is a number that is at least zero; on every value it
    returns [true] or [false], it never throws. *)
Theorem validate_characterization (v : JSValue) :
  (TimespanMetric.validate v = Normal true <-> DurationRecord_shape v) /\
  (TimespanMetric.validate v = Normal true \/ TimespanMetric.validate v = Normal false).
Proof. split; [apply validate_true_shape | apply validate_total]. Qed.

Lemma validate_characterization_witness :
  DurationRecord_shape (record Second 61500) /\
  TimespanMetric.validate (record Second 61500) = Normal true /\
  TimespanMetric.validate (JArray [JNumber 1; JNumber 2]) = Normal false.
Proof.
  assert (H : DurationRecord_shape (record Second 61500)).
  { exists {[ "timespan" := JNumber 61500; "timeUnit" := JString "second" ]}.
    split; [reflexivity|]. split; [reflexivity|].
    split; [by exists Second|]. exists 61500%Q. split; [reflexivity|]. discriminate. }
  split; [exact H|]. split.
  - exact (proj2 (proj1 (validate_characterization _)) H).
  - destruct (proj2 (validate_characterization (JArray [JNumber 1; JNumber 2]))) as [E|E].
    + discriminate E.
    + exact E.
Defined.

(** ** Rounding to doubles *)

Section Rounding.
Local Open Scope Q_scope.

Lemma ties_even_bounds x : (Qfloor x <= ties_even x <= Qfloor x + 1)%Z.
Proof.
  unfold ties_even. cbv zeta.
  destruct (Qcompare _ _); [destruct (Z.even _)| |]; lia.
Qed.

Lemma ties_even_comp x y : x == y -> ties_even x = ties_even y.
Proof.
  intros H. unfold ties_even. cbv zeta. rewrite (Qfloor_comp x y H).
  assert (E : x - inject_Z (Qfloor y) == y - inject_Z (Qfloor y)) by lra.
  by rewrite (Qcompare_comp _ _ E _ _ (Qeq_refl (1 # 2))).
Qed.

Lemma ties_even_inject_Z n : ties_even (inject_Z n) = n.
Proof.
  unfold ties_even. cbv zeta. rewrite Qfloor_Z.
  destruct (Qcompare_spec (inject_Z n - inject_Z n) (1 # 2)) as [H|H|H]; [lra|done|lra].
Qed.

Lemma ties_even_mono x y : x <= y -> (ties_even x <= ties_even y)%Z.
Proof.
  intros Hxy. pose proof (Qfloor_resp_le _ _ Hxy) as Hf.
  destruct (Z.eq_dec (Qfloor x) (Qfloor y)) as [E|NE].
  - unfold ties_even. cbv zeta. rewrite <- E.
    destruct (Qcompare_spec (x - inject_Z (Qfloor x)) (1 # 2)) as [Hx|Hx|Hx];
      destruct (Qcompare_spec (y - inject_Z (Qfloor x)) (1 # 2)) as [Hy|Hy|Hy];
      try destruct (Z.even _); try lia; lra.
  - pose proof (ties_even_bounds x). pose proof (ties_even_bounds y). lia.
Qed.

Lemma pow2_pos z : 0 < 2 ^ z.
Proof. by apply Qpower_0_lt. Qed.

Lemma pow2_plus a b : 2 ^ (a + b) == 2 ^ a * 2 ^ b.
Proof. by apply Qpower_plus. Qed.

Lemma pow2_le a b : (a <= b)%Z -> 2 ^ a <= 2 ^ b.
Proof. intros. by apply Qpower_le_compat_l. Qed.

Lemma pow2_lt a b : (a < b)%Z -> 2 ^ a < 2 ^ b.
Proof. intros. by apply Qpower_lt_compat_l. Qed.

Lemma pow2_Z n : (0 <= n)%Z -> 2 ^ n == inject_Z (2 ^ n).
Proof. intros. symmetry. by apply (Zpower_Qpower 2). Qed.

Lemma pow2_div a b : 2 ^ a / 2 ^ b == 2 ^ (a - b).
Proof.
  pose proof (pow2_pos b). rewrite <- (Qmult_inj_r _ _ (2 ^ b)) by lra.
  rewrite <- pow2_plus. replace (a - b + b)%Z with a by lia. field. lra.
Qed.

Lemma ilog2_spec q : 0 < q -> 2 ^ ilog2 q <= q /\ q < 2 ^ (ilog2 q + 1).
Proof.
  intros Hq. destruct q as [a b]. unfold ilog2. cbn [Qnum Qden].
  assert (Ha : (0 < a)%Z) by (unfold Qlt in Hq; cbn in Hq; lia).
  set (la := Z.log2 a). set (lb := Z.log2 (Z.pos b)).
  destruct (Z.log2_spec a Ha) as [Ha1 Ha2]. fold la in Ha1, Ha2.
  destruct (Z.log2_spec (Z.pos b) ltac:(lia)) as [Hb1 Hb2]. fold lb in Hb1, Hb2.
  assert (Hla : (0 <= la)%Z) by apply Z.log2_nonneg.
  assert (Hlb : (0 <= lb)%Z) by apply Z.log2_nonneg.
  rewrite Zle_Qle, <- pow2_Z in Ha1, Hb1 by done.
  rewrite Zlt_Qlt, <- pow2_Z in Ha2, Hb2 by lia.
  replace (Z.succ la) with (la + 1)%Z in Ha2 by lia.
  replace (Z.succ lb) with (lb + 1)%Z in Hb2 by lia.
  set (A := inject_Z a) in *. set (B := inject_Z (Z.pos b)) in *.
  assert (HB : 0 < B) by (pose proof (pow2_pos lb); lra).
  assert (Eq : a # b == A / B) by apply Qmake_Qdiv.
  assert (Hupper : a # b < 2 ^ (la - lb + 1)).
  { rewrite Eq. apply Qlt_shift_div_r; [done|].
    replace (la - lb + 1)%Z with ((la + 1) - lb)%Z by lia.
    rewrite <- pow2_div. pose proof (pow2_pos lb) as HL. pose proof (pow2_pos (la + 1)) as HP.
    set (P := 2 ^ (la + 1)) in *. set (L := 2 ^ lb) in *.
    assert (HD : P / L * L == P) by (field; lra).
    assert (0 < P / L) by (apply Qlt_shift_div_l; lra).
    nra. }
  assert (Hlower : 2 ^ (la - lb - 1) < a # b).
  { rewrite Eq. apply Qlt_shift_div_l; [done|].
    replace (la - lb - 1)%Z with (la - (lb + 1))%Z by lia.
    rewrite <- pow2_div. pose proof (pow2_pos (lb + 1)) as HL. pose proof (pow2_pos la) as HP.
    set (P := 2 ^ la) in *. set (L := 2 ^ (lb + 1)) in *.
    assert (HD : P / L * L == P) by (field; lra).
    assert (0 < P / L) by (apply Qlt_shift_div_l; lra).
    nra. }
  destruct (Qle_bool (2 ^ (la - lb)) (a # b)) eqn:Ht.
  - apply Qle_bool_iff in Ht. done.
  - split; [lra|]. replace (la - lb - 1 + 1)%Z with (la - lb)%Z by lia.
    apply Qnot_le_lt. intros Hc. apply Qle_bool_iff in Hc. congruence.
Qed.

Lemma ilog2_unique q e : 0 < q -> 2 ^ e <= q -> q < 2 ^ (e + 1) -> ilog2 q = e.
Proof.
  intros Hq H1 H2. destruct (ilog2_spec q Hq) as [H3 H4].
  assert ((e < ilog2 q + 1)%Z).
  { apply (Qpower_lt_compat_l_inv 2); [lra|done]. }
  assert ((ilog2 q < e + 1)%Z).
  { apply (Qpower_lt_compat_l_inv 2); [lra|done]. }
  lia.
Qed.

Lemma ilog2_comp x y : 0 < x -> x == y -> ilog2 x = ilog2 y.
Proof.
  intros Hx E. destruct (ilog2_spec x Hx). symmetry. apply ilog2_unique; lra.
Qed.

Lemma ilog2_mono x y : 0 < x -> x <= y -> (ilog2 x <= ilog2 y)%Z.
Proof.
  intros Hx Hxy. destruct (ilog2_spec x Hx). destruct (ilog2_spec y ltac:(lra)).
  assert ((ilog2 x < ilog2 y + 1)%Z); [|lia].
  apply (Qpower_lt_compat_l_inv 2); [lra|done].
Qed.

Lemma div_pow2_le x a s : x <= 2 ^ a -> x / 2 ^ s <= 2 ^ (a - s).
Proof.
  intros H. rewrite <- pow2_div. pose proof (pow2_pos s).
  apply Qmult_le_compat_r; [done|]. by apply Qlt_le_weak, Qinv_lt_0_compat.
Qed.

Lemma pow2_le_div x a s : 2 ^ a <= x -> 2 ^ (a - s) <= x / 2 ^ s.
Proof.
  intros H. rewrite <- pow2_div. pose proof (pow2_pos s).
  apply Qmult_le_compat_r; [done|]. by apply Qlt_le_weak, Qinv_lt_0_compat.
Qed.

Lemma ulp_exp_pos x : 0 < x -> ulp_exp x = (Z.max (ilog2 x) (-1022) - 52)%Z.
Proof.
  intros Hx. unfold ulp_exp. f_equal. f_equal.
  pose proof (Qabs_pos x ltac:(lra)) as E. symmetry. apply ilog2_comp; [done|by symmetry].
Qed.

Lemma binary64_pos x :
  0 < x -> binary64 x = inject_Z (ties_even (x / 2 ^ ulp_exp x)) * 2 ^ ulp_exp x.
Proof.
  intros Hx. unfold binary64. destruct (Qeq_bool x 0) eqn:E; [|done].
  apply Qeq_bool_iff in E. lra.
Qed.

Lemma binary64_zero x : x == 0 -> binary64 x = 0.
Proof. intros E. unfold binary64. by rewrite (proj2 (Qeq_bool_iff x 0) E). Qed.

Lemma ties_even_nonneg x : 0 <= x -> (0 <= ties_even x)%Z.
Proof.
  intros Hx. rewrite <- (ties_even_inject_Z 0). by apply ties_even_mono.
Qed.

Lemma binary64_nonneg x : 0 <= x -> 0 <= binary64 x.
Proof.
  intros Hx. destruct (Qeq_dec x 0) as [E|NE]; [by rewrite binary64_zero|].
  rewrite binary64_pos by lra. pose proof (pow2_pos (ulp_exp x)).
  apply Qmult_le_0_compat; [|lra]. rewrite <- (Zle_Qle 0). apply ties_even_nonneg.
  apply Qle_shift_div_l; [done|lra].
Qed.

Lemma binary64_mono_pos x y : 0 < x -> x <= y -> binary64 x <= binary64 y.
Proof.
  intros Hx Hxy. assert (Hy : 0 < y) by lra.
  rewrite (binary64_pos x Hx), (binary64_pos y Hy).
  rewrite (ulp_exp_pos x Hx), (ulp_exp_pos y Hy).
  pose proof (ilog2_mono x y Hx Hxy) as Hlog.
  destruct (ilog2_spec x Hx) as [_ Hxu]. destruct (ilog2_spec y Hy) as [Hyl _].
  set (cx := Z.max (ilog2 x) (-1022)). set (cy := Z.max (ilog2 y) (-1022)).
  destruct (Z.eq_dec cx cy) as [E|NE].
  - rewrite <- E. pose proof (pow2_pos (cx - 52)).
    apply Qmult_le_compat_r; [|lra]. rewrite <- Zle_Qle. apply ties_even_mono.
    apply Qmult_le_compat_r; [done|]. apply Qlt_le_weak, Qinv_lt_0_compat. done.
  - assert (Hcy : cy = ilog2 y) by lia. assert (Hlt : (cx + 1 <= cy)%Z) by lia.
    apply Qle_trans with (2 ^ (cx + 1)); [|apply Qle_trans with (2 ^ cy)].
    + (* the rounded [x] stays below the next power of two *)
      assert (Hx2 : x <= 2 ^ (cx + 1)).
      { apply Qlt_le_weak, (Qlt_le_trans _ _ _ Hxu), pow2_le. lia. }
      assert (Hq : x / 2 ^ (cx - 52) <= inject_Z (2 ^ 53)).
      { rewrite <- pow2_Z by lia. replace 53%Z with (cx + 1 - (cx - 52))%Z by lia.
        by apply div_pow2_le. }
      apply ties_even_mono in Hq. rewrite ties_even_inject_Z in Hq.
      rewrite Zle_Qle in Hq. rewrite <- pow2_Z in Hq by lia.
      assert (E : 2 ^ (cx + 1) == 2 ^ 53 * 2 ^ (cx - 52)).
      { rewrite <- pow2_plus. by replace (53 + (cx - 52))%Z with (cx + 1)%Z by lia. }
      pose proof (pow2_pos (cx - 52)). rewrite E.
      apply Qmult_le_compat_r; [done|lra].
    + by apply pow2_le.
    + (* the rounded [y] stays above its own power of two *)
      assert (Hq : inject_Z (2 ^ 52) <= y / 2 ^ (cy - 52)).
      { rewrite <- pow2_Z by lia. replace 52%Z with (cy - (cy - 52))%Z at 1 by lia.
        apply pow2_le_div. by rewrite Hcy. }
      apply ties_even_mono in Hq. rewrite ties_even_inject_Z in Hq.
      rewrite Zle_Qle in Hq. rewrite <- pow2_Z in Hq by lia.
      assert (E : 2 ^ cy == 2 ^ 52 * 2 ^ (cy - 52)).
      { rewrite <- pow2_plus. by replace (52 + (cy - 52))%Z with cy by lia. }
      pose proof (pow2_pos (cy - 52)). rewrite E.
      apply Qmult_le_compat_r; [done|lra].
Qed.

Lemma binary64_mono x y : 0 <= x -> x <= y -> binary64 x <= binary64 y.
Proof.
  intros Hx Hxy. destruct (Qeq_dec x 0) as [E|NE].
  - rewrite (binary64_zero x E). apply binary64_nonneg. lra.
  - apply binary64_mono_pos; lra.
Qed.

Lemma binary64_comp x y : x == y -> binary64 x == binary64 y.
Proof.
  intros E. destruct (Qeq_dec x 0) as [Z0|NZ].
  - rewrite (binary64_zero x Z0), (binary64_zero y) by lra. reflexivity.
  - assert (Hu : ulp_exp x = ulp_exp y).
    { unfold ulp_exp. f_equal. f_equal. apply ilog2_comp; [|by apply Qabs_wd].
      destruct (Qlt_le_dec x 0) as [Hneg|Hpos].
      - pose proof (Qabs_neg x ltac:(lra)). lra.
      - pose proof (Qabs_pos x Hpos). lra. }
    assert (Hx : Qeq_bool x 0 = false).
    { apply not_true_iff_false. intros H%Qeq_bool_iff. done. }
    assert (Hy : Qeq_bool y 0 = false).
    { apply not_true_iff_false. intros H%Qeq_bool_iff. lra. }
    unfold binary64. rewrite Hx, Hy, <- Hu.
    apply Qmult_comp; [|reflexivity].
    rewrite (ties_even_comp (x / 2 ^ ulp_exp x) (y / 2 ^ ulp_exp x)); [reflexivity|].
    unfold Qdiv. apply Qmult_comp; [exact E | reflexivity].
Qed.

Lemma inject_Z_div_pow2 z s :
  (s <= 0)%Z -> inject_Z z / 2 ^ s == inject_Z (z * 2 ^ (- s)).
Proof.
  intros Hs. rewrite inject_Z_mult, <- pow2_Z by lia.
  rewrite (Qpower_opp 2 s). reflexivity.
Qed.



(** Whole numbers below [2 ^ 53] are doubles. *)
Lemma binary64_Z_exact z :
  (0 <= z < 2 ^ 53)%Z -> binary64 (inject_Z z) == inject_Z z.
Proof.
  intros [Hz Hlt]. destruct (Z.eq_dec z 0%Z) as [->|Hnz].
  { by rewrite binary64_zero. }
  assert (Hx : 0 < inject_Z z) by (rewrite <- (Zlt_Qlt 0); lia).
  destruct (ilog2_spec _ Hx) as [Hl Hu].
  assert (He : (ilog2 (inject_Z z) < 53)%Z).
  { apply (Qpower_lt_compat_l_inv 2); [|done].
    apply (Qle_lt_trans _ _ _ Hl). rewrite pow2_Z by done. by rewrite <- Zlt_Qlt. }
  assert (He0 : (0 < ilog2 (inject_Z z) + 1)%Z).
  { apply (Qpower_lt_compat_l_inv 2); [|done].
    apply (Qle_lt_trans _ (inject_Z z)); [|done].
    change (2 ^ 0) with (inject_Z 1). rewrite <- Zle_Qle. lia. }
  rewrite binary64_pos by done.
  assert (Hs : (ulp_exp (inject_Z z) <= 0)%Z) by (rewrite ulp_exp_pos by done; lia).
  set (s := ulp_exp (inject_Z z)) in *.
  rewrite (ties_even_comp _ _ (inject_Z_div_pow2 z s Hs)), ties_even_inject_Z.
  rewrite inject_Z_mult, <- pow2_Z by lia. rewrite <- Qmult_assoc, <- pow2_plus.
  replace (- s + s)%Z with 0%Z by lia. change (2 ^ 0) with 1. ring.
Qed.

(** The rounding agrees with IEEE 754 on products whose exact value is not
    a double: [1.1 * 10**6] is [1100000], [(2**53 - 1) * 10**6] is
    [9007199254740990951424], [0.000123 * 10**6] is [123.00000000000001],
    and [0.7 - 0.1] is the double nearest to six tenths. *)
Example binary64_product_1_1 :
  js_mul (binary64 (11 # 10)) 1000000 == 1100000.
Proof. vm_compute. reflexivity. Qed.

Example binary64_product_2_53 :
  js_mul 9007199254740991 1000000 == 9007199254740990951424.
Proof. vm_compute. reflexivity. Qed.

Example binary64_product_123 :
  js_mul (binary64 (123 # 1000000)) 1000000 == 8655355533852673 # 70368744177664.
Proof. vm_compute. reflexivity. Qed.

Example binary64_difference_0_6 :
  binary64 (binary64 (7 # 10) - binary64 (1 # 10)) == 5404319552844595 # 9007199254740992 /\
  ~ binary64 (7 # 10) - binary64 (1 # 10) == 6 # 10.
Proof. split; [vm_compute; reflexivity|]. intros H. vm_compute in H. discriminate H. Qed.

End Rounding.

(** ** Payload conversion *)

Section Payload.
Import TimespanMetric.

Lemma js_get_record_timespan u ms : js_get "timespan" (record u ms) = JNumber ms.
Proof. unfold record, js_get. by rewrite lookup_insert_eq. Qed.

Lemma js_get_record_timeUnit u ms :
  js_get "timeUnit" (record u ms) = JString (TimeUnit_value u).
Proof.
  unfold record, js_get. rewrite lookup_insert_ne by done.
  by rewrite lookup_singleton_eq.
Qed.

Lemma as_TimeUnit_value u : as_TimeUnit (JString (TimeUnit_value u)) = Some u.
Proof. by destruct u. Qed.

Lemma payload_record u ms :
  payload (mk (record u ms)) =
  Some match u with
       | Nanosecond => js_mul ms (10 ^ 6)%Q
       | Microsecond => js_mul ms (10 ^ 3)%Q
       | Millisecond => ms
       | Second => Math_round (js_div ms 1000)
       | Minute => Math_round (js_div (js_div ms 1000) 60)
       | Hour => Math_round (js_div (js_div (js_div ms 1000) 60) 60)
       | Day => Math_round (js_div (js_div (js_div (js_div ms 1000) 60) 60) 24)
       end.
Proof.
  unfold payload. cbn [_inner].
  rewrite js_get_record_timespan, js_get_record_timeUnit, as_TimeUnit_value.
  by destruct u.
Qed.

Lemma Math_round_nearest q : nearest_integer q (Qfloor (q + (1 # 2))).
Proof.
  pose proof (Qfloor_le (q + (1 # 2))) as Hle.
  pose proof (Qlt_floor (q + (1 # 2))) as Hlt.
  rewrite inject_Z_plus in Hlt. change (inject_Z 1) with 1%Q in Hlt.
  split; lra.
Qed.

Lemma nearest_integer_unique q z1 z2 :
  nearest_integer q z1 -> nearest_integer q z2 -> z1 = z2.
Proof.
  intros [H1 H1'] [H2 H2'].
  assert (Ha : (inject_Z z1 < inject_Z (z2 + 1))%Q)
    by (rewrite inject_Z_plus; change (inject_Z 1) with 1%Q; lra).
  assert (Hb : (inject_Z z2 < inject_Z (z1 + 1))%Q)
    by (rewrite inject_Z_plus; change (inject_Z 1) with 1%Q; lra).
  rewrite <- Zlt_Qlt in Ha, Hb. lia.
Qed.

Lemma nearest_integer_Qeq q q' z :
  (q == q')%Q -> nearest_integer q z -> nearest_integer q' z.
Proof. intros Hq [H1 H2]. split; lra. Qed.

Lemma payload_record_doubles u ms :
  exists p, payload (mk (record u ms)) = Some p /\ conversion_in_doubles u ms p.
Proof.
  rewrite payload_record. eexists. split; [reflexivity|].
  destruct u; cbn [conversion_in_doubles].
  - reflexivity.
  - reflexivity.
  - reflexivity.
  - eexists. split; [reflexivity|]. apply Math_round_nearest.
  - eexists. split; [reflexivity|]. apply Math_round_nearest.
  - eexists. split; [reflexivity|]. apply Math_round_nearest.
  - eexists. split; [reflexivity|]. apply Math_round_nearest.
Qed.

End Payload.

(** [C5] As stated (for every valid record the payload for minutes is the
    nearest integer to the stored milliseconds divided by 60_000) the claim
    fails: the code divides by 1000 and then by 60, each quotient rounded to
    a double.  For 2253998775804149760 stored milliseconds it returns
    37566646263403, while the nearest integer to the quotient by 60_000 is
    37566646263402, with the division exact and with one division in
    doubles alike. *)
Lemma payload_minutes_divide_twice :
  TimespanMetric.validate (record Minute 2253998775804149760) = Normal true /\
  (m ← TimespanMetric.new (record Minute 2253998775804149760);
   Normal (TimespanMetric.payload m)) = Normal (Some 37566646263403%Q) /\
  nearest_integer (2253998775804149760 / 60000) 37566646263402 /\
  Math_round (js_div 2253998775804149760 60000) = 37566646263402%Q /\
  ~ conversion Minute 2253998775804149760 37566646263403.
Proof.
  split; [vm_compute; reflexivity|]. split; [vm_compute; reflexivity|].
  assert (Hn : nearest_integer (2253998775804149760 / 60000) 37566646263402).
  { split; [reflexivity | discriminate]. }
  split; [exact Hn|]. split; [vm_compute; reflexivity|].
  intros (z & Hz & Hz'). pose proof (nearest_integer_unique _ _ _ Hn Hz') as <-.
  discriminate Hz.
Qed.

(** [C5] (amended) The payload of every valid stored record follows the
    conversion table computed in doubles: the stored milliseconds times
    1_000_000 for nanoseconds and times 1_000 for microseconds, each product
    rounded to a double (as long as it does not exceed the largest double);
    the stored milliseconds for milliseconds; and for
    seconds, minutes, hours and days the nearest integer (the upper one at a
    tie) to the stored milliseconds divided in turn by 1000, by 60, by 60 and
    by 24, each quotient rounded to a double.  61500 milliseconds with the
    unit second give 62. *)
Theorem payload_conversion_table :
  (forall v, TimespanMetric.validate v = Normal true ->
     exists u ms p,
       v = record u ms /\
       (m ← TimespanMetric.new v; Normal (TimespanMetric.payload m)) = Normal (Some p) /\
       conversion_in_doubles u ms p) /\
  (m ← TimespanMetric.new (record Second 61500); Normal (TimespanMetric.payload m))
    = Normal (Some 62%Q).
Proof.
  split.
  - intros v Hv. destruct (validate_true_record v Hv) as (u & ms & -> & Hms).
    destruct (payload_record_doubles u ms) as (p & Hp & Hc).
    exists u, ms, p. split; [done|]. split; [|done].
    rewrite (new_valid _ Hv). cbn. by rewrite Hp.
  - vm_compute. reflexivity.
Qed.

Lemma payload_conversion_table_witness :
  TimespanMetric.validate (record Minute 90000) = Normal true /\
  exists u ms p,
    record Minute 90000 = record u ms /\
    (m ← TimespanMetric.new (record Minute 90000); Normal (TimespanMetric.payload m))
      = Normal (Some p) /\
    conversion_in_doubles u ms p.
Proof.
  split; [vm_compute; reflexivity|].
  apply (proj1 payload_conversion_table). vm_compute. reflexivity.
Defined.

(** ** The merge function of [stop] *)

Section Merge.
Import TimespanMetric TimespanMetricType.

Lemma transformFn_valid elapsed old f :
  validate old = Normal true ->
  Task.transformFn elapsed old f = (Normal (TimespanMetric.mk old), set_reportValueExists true f).
Proof. intros Hv. unfold Task.transformFn. by rewrite (new_valid _ Hv). Qed.

Lemma transformFn_invalid elapsed old f :
  (0 <= elapsed)%Q -> validate old <> Normal true ->
  Task.transformFn elapsed old f =
  (Normal (TimespanMetric.mk (record (timeUnit (this (world f))) elapsed)), f).
Proof.
  intros He Hv. unfold Task.transformFn.
  destruct (new_invalid _ Hv) as [e ->].
  fold (record (timeUnit (this (world f))) elapsed).
  by rewrite (new_valid _ (validate_record _ _ He)).
Qed.

(** Every metric value made by the constructor holds a valid raw value. *)
Lemma new_Normal v m : new v = Normal m -> validate v = Normal true /\ m = TimespanMetric.mk v.
Proof.
  unfold new. destruct (validate_total v) as [-> | ->]; cbn.
  - by intros [= <-].
  - discriminate.
Qed.

Lemma transformFn_Normal elapsed old f m :
  fst (Task.transformFn elapsed old f) = Normal m -> validate (get m) = Normal true.
Proof.
  unfold Task.transformFn. destruct (new old) as [m'|e] eqn:Hold; cbn [fst].
  - intros [= <-]. by apply new_Normal in Hold as [? ->].
  - intros [? ->]%new_Normal. done.
Qed.

Lemma valid_fields v :
  validate v = Normal true ->
  has_exactly_fields {[ "timeUnit"; "timespan" ]} v /\ magnitude_under "timespan" v.
Proof.
  intros (u & ms & -> & Hms)%validate_true_record. split.
  - eexists. split; [reflexivity|].
    rewrite dom_insert_L, dom_singleton_L. set_solver.
  - exists ms. by rewrite js_get_record_timespan.
Qed.

End Merge.

(** ** The storage transform driven by the merge function *)

Section Transform.
Import TimespanMetric TimespanMetricType.

Lemma valid_default_Some (db : gmap string JSValue) ping :
  validate (default JUndefined (db !! ping)) = Normal true ->
  db !! ping = Some (default JUndefined (db !! ping)).
Proof. destruct (db !! ping); [done|]. discriminate. Qed.

Lemma transform_pings_transformFn elapsed th ue con pings :
  (0 <= elapsed)%Q ->
  forall db flag,
  exists db' flag',
    transform_pings (Task.transformFn elapsed) pings
                    (mkFrame (mkWorld th ue db con) flag)
    = (Normal tt, mkFrame (mkWorld th ue db' con) flag') /\
    merged (record (timeUnit th) elapsed) pings db db'.
Proof.
  intros He. induction pings as [|p rest IH]; intros db flag.
  - exists db, flag. split; [done|].
    repeat split; try done; intros ping Hin; by apply not_elem_of_nil in Hin.
  - cbn [transform_pings world metricsDatabase].
    destruct (validate_total (default JUndefined (db !! p))) as [Hv|Hv].
    + rewrite (transformFn_valid _ _ _ Hv).
      unfold set_world, set_metricsDatabase, set_reportValueExists.
      cbn [TimespanMetric.get _inner world metricsDatabase this uploadEnabled
           console reportValueExists].
      rewrite (insert_id db p _ (valid_default_Some _ _ Hv)).
      destruct (IH db true) as (db' & flag' & -> & Ha & Hb & Hc & Hd).
      exists db', flag'. split; [done|]. repeat split.
      * intros ping [->|Hin]%elem_of_cons; [|by apply Ha].
        by rewrite (Hb _ Hv).
      * done.
      * intros ping [->|Hin]%elem_of_cons Hn; [done|by apply Hc].
      * intros ping [Hne Hnin]%not_elem_of_cons. by apply Hd.
    + assert (Hv' : validate (default JUndefined (db !! p)) <> Normal true)
        by (rewrite Hv; discriminate).
      rewrite (transformFn_invalid _ _ _ He Hv').
      unfold set_world, set_metricsDatabase, set_reportValueExists.
      cbn [TimespanMetric.get _inner world metricsDatabase this uploadEnabled
           console reportValueExists].
      set (rec := record (timeUnit th) elapsed).
      destruct (IH (<[p:=rec]> db) flag) as (db' & flag' & -> & Ha & Hb & Hc & Hd).
      assert (Hp : db' !! p = Some rec).
      { rewrite Hb; rewrite lookup_insert_eq; [done|]. by apply validate_record. }
      exists db', flag'. split; [done|]. repeat split.
      * intros ping [->|Hin]%elem_of_cons; [|by apply Ha].
        rewrite Hp. by apply validate_record.
      * intros ping Hping.
        assert (Hne : p <> ping) by (intros ->; congruence).
        rewrite Hb; rewrite lookup_insert_ne by done; done.
      * intros ping [->|Hin]%elem_of_cons Hn; [done|].
        destruct (decide (p = ping)) as [->|Hne]; [done|].
        apply Hc; [done|]. by rewrite lookup_insert_ne.
      * intros ping [Hne Hnin]%not_elem_of_cons.
        rewrite Hd by done. by rewrite lookup_insert_ne.
Qed.


End Transform.

(** ** The tasks *)

Section Tasks.
Import TimespanMetric TimespanMetricType.

Lemma Qlt_bool_true x y : (x < y)%Q -> Qlt_bool x y = true.
Proof.
  intros H. unfold Qlt_bool. apply negb_true_iff.
  destruct (Qle_bool y x) eqn:E; [|done].
  apply Qle_bool_iff in E. lra.
Qed.

Lemma Qlt_bool_false x y : (y <= x)%Q -> Qlt_bool x y = false.
Proof.
  intros H. unfold Qlt_bool. apply negb_false_iff. by apply Qle_bool_iff.
Qed.

Lemma stop_disabled stopTime w :
  shouldRecord (this w) (uploadEnabled w) = false ->
  Task.stop stopTime w = (Normal tt, set_this_startTime None w).
Proof. intros H. unfold Task.stop. by rewrite H. Qed.

Lemma stop_negative stopTime started w :
  shouldRecord (this w) (uploadEnabled w) = true ->
  startTime (this w) = Some started ->
  (stopTime < started)%Q ->
  Task.stop stopTime w
  = (Normal tt, console_error "Timespan was negative." (set_this_startTime None w)).
Proof.
  intros Hrec Hst Hlt. unfold Task.stop. rewrite Hrec, Hst. cbn [negb].
  rewrite Qlt_bool_true; [done | lra].
Qed.

Lemma stop_running stopTime started w :
  shouldRecord (this w) (uploadEnabled w) = true ->
  startTime (this w) = Some started ->
  (started <= stopTime)%Q ->
  exists db' con',
    Task.stop stopTime w
    = (Normal tt, mkWorld (set_startTime None (this w)) (uploadEnabled w) db' con') /\
    merged (record (timeUnit (this w)) (stopTime - started))
           (sendInPings (this w)) (metricsDatabase w) db'.
Proof.
  intros Hrec Hst Hle. unfold Task.stop. rewrite Hrec, Hst. cbn [negb].
  rewrite Qlt_bool_false by lra.
  destruct w as [th ue db con]. unfold transform, set_this_startTime.
  cbn [this uploadEnabled metricsDatabase console].
  destruct (transform_pings_transformFn (stopTime - started) (set_startTime None th)
              ue con (sendInPings (set_startTime None th)) ltac:(lra) db false)
    as (db' & flag' & -> & Hm).
  cbn [reportValueExists world].
  destruct flag'; eexists _, _; (split; [reflexivity | exact Hm]).
Qed.

Lemma start_idle startTime w :
  shouldRecord (this w) (uploadEnabled w) = true ->
  TimespanMetricType.startTime (this w) = None ->
  Task.start startTime w = set_this_startTime (Some startTime) w.
Proof. intros Hrec Hst. unfold Task.start. by rewrite Hrec, Hst. Qed.

Lemma start_running startTime started w :
  shouldRecord (this w) (uploadEnabled w) = true ->
  TimespanMetricType.startTime (this w) = Some started ->
  Task.start startTime w = console_error "Timespan already started." w.
Proof. intros Hrec Hst. unfold Task.start. by rewrite Hrec, Hst. Qed.

Lemma start_disabled startTime w :
  shouldRecord (this w) (uploadEnabled w) = false -> Task.start startTime w = w.
Proof. intros Hrec. unfold Task.start. by rewrite Hrec. Qed.

(** [start] only ever touches the start time and the log. *)
Lemma start_frame now w :
  exists st con,
    Task.start now w
    = mkWorld (set_startTime st (this w)) (uploadEnabled w) (metricsDatabase w) con.
Proof.
  destruct w as [[dis pings unit st] ue db con]. unfold Task.start.
  destruct (negb _); [by exists st, con|].
  destruct (negb _); by eexists _, _.
Qed.



End Tasks.

(** ** First write wins *)




(** ** Effects of the merge function *)

(** [C2] As stated (the merge function changes no variable outside itself)
    the claim fails: on a valid stored value the function sets the variable
    [reportValueExists] of the enclosing task. *)
Lemma merge_sets_reportValueExists :
  snd (Task.transformFn 400 (record Millisecond 240) (mkFrame example_idle false))
  <> mkFrame example_idle false.
Proof.
  intros H. apply (f_equal reportValueExists) in H. vm_compute in H. discriminate H.
Qed.

(** [C2] (amended) The merge function changes nothing of the world: no field
    of the metric, no stored value, no log line.  Its one effect besides the
    value it returns is on [reportValueExists], the local variable of the
    [stop] task it closes over: that becomes [true] when the stored value is
    valid and is left alone otherwise. *)
Theorem merge_effect (elapsed : Q) (old : JSValue) (f : Frame) :
  world (snd (Task.transformFn elapsed old f)) = world f /\
  (TimespanMetric.validate old = Normal true ->
   reportValueExists (snd (Task.transformFn elapsed old f)) = true) /\
  (TimespanMetric.validate old <> Normal true ->
   snd (Task.transformFn elapsed old f) = f).
Proof.
  unfold Task.transformFn.
  destruct (validate_total old) as [Hv|Hv].
  - rewrite (new_valid _ Hv). cbn [snd world set_reportValueExists reportValueExists].
    split; [done|]. split; [done|]. intros Hn. by destruct Hn.
  - destruct (new_invalid old) as [e ->]; [rewrite Hv; discriminate|].
    cbn [snd]. split; [done|]. split; [|done]. rewrite Hv. discriminate.
Qed.

Lemma merge_effect_witness :
  TimespanMetric.validate (record Millisecond 240) = Normal true /\
  world (snd (Task.transformFn 400 (record Millisecond 240) (mkFrame example_idle false)))
  = example_idle /\
  reportValueExists
    (snd (Task.transformFn 400 (record Millisecond 240) (mkFrame example_idle false)))
  = true /\
  TimespanMetric.validate JUndefined <> Normal true /\
  snd (Task.transformFn 400 JUndefined (mkFrame example_idle false))
  = mkFrame example_idle false.
Proof.
  assert (Hv : TimespanMetric.validate (record Millisecond 240) = Normal true)
    by (vm_compute; reflexivity).
  assert (Hu : TimespanMetric.validate JUndefined <> Normal true)
    by (vm_compute; discriminate).
  split; [exact Hv|].
  split; [exact (proj1 (merge_effect 400 _ (mkFrame example_idle false)))|].
  split; [exact (proj1 (proj2 (merge_effect 400 _ (mkFrame example_idle false))) Hv)|].
  split; [exact Hu|].
  exact (proj2 (proj2 (merge_effect 400 _ (mkFrame example_idle false))) Hu).
Defined.

(** ** The shape of the persisted record *)

(** [C4] As stated (the magnitude is kept under a property [durationMillis])
    the claim fails: a record accepted by the validator has no such property,
    and an object that has it in place of [timespan] is rejected. *)
Lemma durationMillis_not_the_field :
  TimespanMetric.validate (record Millisecond 240) = Normal true /\
  ~ has_exactly_fields {[ "timeUnit"; "durationMillis" ]} (record Millisecond 240) /\
  ~ magnitude_under "durationMillis" (record Millisecond 240) /\
  TimespanMetric.validate
    (JObject {[ "durationMillis" := JNumber 240;
                "timeUnit" := JString (TimeUnit_value Millisecond) ]})
  = Normal false.
Proof.
  split; [vm_compute; reflexivity|]. split; [|split].
  - intros (o & [= <-] & Hdom).
    assert (Hin : "timespan" ∈ ({[ "timeUnit"; "durationMillis" ]} : gset string))
      by (rewrite <- Hdom, dom_insert_L; set_solver).
    apply elem_of_union in Hin as [Hin|Hin]; apply elem_of_singleton in Hin;
      discriminate Hin.
  - intros (n & Hn & _). vm_compute in Hn. discriminate Hn.
  - vm_compute. reflexivity.
Qed.

(** [C4] (amended) The persisted record has exactly the two properties
    [timeUnit] and [timespan]: every value accepted by the validator, and
    every record returned by the merge function of [stop], is a plain object
    with exactly these two properties and carries its magnitude, a number
    that is at least zero, under [timespan]. *)
Theorem persisted_record_fields :
  (forall v, TimespanMetric.validate v = Normal true ->
     has_exactly_fields {[ "timeUnit"; "timespan" ]} v /\
     magnitude_under "timespan" v) /\
  (forall elapsed old f m,
     fst (Task.transformFn elapsed old f) = Normal m ->
     has_exactly_fields {[ "timeUnit"; "timespan" ]} (TimespanMetric.get m) /\
     magnitude_under "timespan" (TimespanMetric.get m)).
Proof.
  split.
  - apply valid_fields.
  - intros elapsed old f m Hm. eapply valid_fields, transformFn_Normal, Hm.
Qed.

Lemma persisted_record_fields_witness :
  TimespanMetric.validate (record Second 61500) = Normal true /\
  magnitude_under "timespan" (record Second 61500) /\
  fst (Task.transformFn 240 JUndefined (mkFrame example_idle false))
  = Normal (TimespanMetric.mk (record Millisecond 240)) /\
  has_exactly_fields {[ "timeUnit"; "timespan" ]} (record Millisecond 240).
Proof.
  assert (Hv : TimespanMetric.validate (record Second 61500) = Normal true)
    by (vm_compute; reflexivity).
  assert (Hm : fst (Task.transformFn 240 JUndefined (mkFrame example_idle false))
               = Normal (TimespanMetric.mk (record Millisecond 240)))
    by (vm_compute; reflexivity).
  split; [exact Hv|].
  split; [exact (proj2 (proj1 persisted_record_fields _ Hv))|].
  split; [exact Hm|].
  exact (proj1 (proj2 persisted_record_fields _ _ _ _ Hm)).
Defined.

(** ** Guards of [stop] and [start] *)

(** [C6] As stated (every [stop] whose stop time lies before the start time
    reports a negative timespan) the claim fails: while recording is disabled
    the task resets the timer and reports nothing. *)
Lemma negative_stop_disabled_is_silent :
  TimespanMetricType.startTime (this example_running_disabled) = Some 100%Q /\
  (50 < 100)%Q /\
  console (snd (Task.stop 50 example_running_disabled)) = [].
Proof. split; [reflexivity|]. split; reflexivity. Qed.

(** [C6] (amended) While the metric records, a [stop] whose stop time lies
    before the start time completes normally, reports the negative timespan,
    leaves every stored value as it was and clears the start time. *)
Theorem negative_elapsed_guard (stopTime started : Q) (w : World) :
  TimespanMetricType.shouldRecord (this w) (uploadEnabled w) = true ->
  TimespanMetricType.startTime (this w) = Some started ->
  (stopTime < started)%Q ->
  fst (Task.stop stopTime w) = Normal tt /\
  console (snd (Task.stop stopTime w)) = (console w ++ ["Timespan was negative."])%list /\
  metricsDatabase (snd (Task.stop stopTime w)) = metricsDatabase w /\
  TimespanMetricType.startTime (this (snd (Task.stop stopTime w))) = None.
Proof.
  intros Hrec Hst Hlt. by rewrite (stop_negative _ _ _ Hrec Hst Hlt).
Qed.

Lemma negative_elapsed_guard_witness :
  fst (Task.stop 50 example_running) = Normal tt /\
  console (snd (Task.stop 50 example_running))
  = (console example_running ++ ["Timespan was negative."])%list /\
  metricsDatabase (snd (Task.stop 50 example_running)) = metricsDatabase example_running /\
  TimespanMetricType.startTime (this (snd (Task.stop 50 example_running))) = None.
Proof.
  apply (negative_elapsed_guard 50 100 example_running); reflexivity.
Defined.

(** [C7] As stated (every [start] of a running metric reports that it was
    already started) the claim fails: while recording is disabled the task
    returns at once and reports nothing. *)
Lemma start_running_disabled_is_silent :
  TimespanMetricType.startTime (this example_running_disabled) = Some 100%Q /\
  console (Task.start 200 example_running_disabled) = [].
Proof. split; reflexivity. Qed.

(** [C7] (amended) While the metric records, a [start] of a metric that is
    already running reports that the timespan was already started and changes
    nothing else: the original start time stays, the new clock reading is
    dropped. *)
Theorem preserve_first_start (startTime started : Q) (w : World) :
  TimespanMetricType.shouldRecord (this w) (uploadEnabled w) = true ->
  TimespanMetricType.startTime (this w) = Some started ->
  Task.start startTime w = console_error "Timespan already started." w /\
  console (Task.start startTime w) = (console w ++ ["Timespan already started."])%list /\
  this (Task.start startTime w) = this w /\
  TimespanMetricType.startTime (this (Task.start startTime w)) = Some started /\
  metricsDatabase (Task.start startTime w) = metricsDatabase w /\
  uploadEnabled (Task.start startTime w) = uploadEnabled w.
Proof.
  intros Hrec Hst. by rewrite (start_running _ _ _ Hrec Hst).
Qed.

Lemma preserve_first_start_witness :
  console (Task.start 200 example_running) = ["Timespan already started."] /\
  TimespanMetricType.startTime (this (Task.start 200 example_running)) = Some 100%Q.
Proof.
  destruct (preserve_first_start 200 100 example_running) as (_ & Hc & _ & Hs & _).
  - reflexivity.
  - reflexivity.
  - split; [exact Hc | exact Hs].
Defined.

(** [C8] While recording is disabled, the task of [stop] clears the start
    time, writes nothing to storage and reports nothing, whether the metric
    was running or idle. *)
Theorem disabled_stop_resets_silently (stopTime : Q) (w : World) :
  TimespanMetricType.shouldRecord (this w) (uploadEnabled w) = false ->
  fst (Task.stop stopTime w) = Normal tt /\
  TimespanMetricType.startTime (this (snd (Task.stop stopTime w))) = None /\
  metricsDatabase (snd (Task.stop stopTime w)) = metricsDatabase w /\
  console (snd (Task.stop stopTime w)) = console w.
Proof.
  intros Hrec. by rewrite (stop_disabled _ _ Hrec).
Qed.

Lemma disabled_stop_resets_silently_witness :
  fst (Task.stop 340 example_running_disabled) = Normal tt /\
  TimespanMetricType.startTime (this (snd (Task.stop 340 example_running_disabled))) = None /\
  metricsDatabase (snd (Task.stop 340 example_running_disabled))
  = metricsDatabase example_running_disabled /\
  console (snd (Task.stop 340 example_running_disabled))
  = console example_running_disabled.
Proof.
  apply (disabled_stop_resets_silently 340 example_running_disabled). reflexivity.
Defined.

(** ** Reading back *)

Section ReadBack.
Import TimespanMetric TimespanMetricType.

Lemma testGetValue_read_ping ping w :
  Task.testGetValue ping w
  = (if truthy (getMetric (read_ping ping w) w)
     then m ← new (getMetric (read_ping ping w) w); Normal (payload m)
     else Normal None, w).
Proof. unfold Task.testGetValue, read_ping. by destruct (truthy _). Qed.

(** What [testGetValue] returns depends on the destinations and on the
    database only. *)
Lemma testGetValue_depends ping w1 w2 :
  sendInPings (this w1) = sendInPings (this w2) ->
  metricsDatabase w1 = metricsDatabase w2 ->
  fst (Task.testGetValue ping w1) = fst (Task.testGetValue ping w2).
Proof.
  intros Hp Hdb. rewrite !testGetValue_read_ping. cbn [fst].
  unfold read_ping, getMetric. by rewrite Hp, Hdb.
Qed.

(** Calls other than [stop] leave the destinations and the database alone. *)
Lemma run_without_stop calls :
  Forall (fun c => forall now, c <> CallStop now) calls ->
  forall w,
    sendInPings (this (run calls w)) = sendInPings (this w) /\
    metricsDatabase (run calls w) = metricsDatabase w.
Proof.
  induction 1 as [|c rest Hc _ IH]; intros w; cbn [run]; [done|].
  destruct (IH (call c w)) as [-> ->].
  destruct c as [now|now| |b]; cbn [call].
  - unfold start. destruct (start_frame now w) as (st & con & ->). done.
  - by destruct (Hc now).
  - done.
  - done.
Qed.

End ReadBack.

(** [C9] [testGetValue] changes neither the start time nor any stored value
    (it changes nothing at all).  For the destination it reads, the one given
    or by default the first of [sendInPings], it returns the stored
    milliseconds converted to the stored unit as [payload] computes when a
    valid record is present, and [undefined] when nothing is stored.  Reading
    again returns the same, also after calls of [start] and [cancel] and
    changes of the collection flag, as long as no [stop] came between. *)
Theorem testGetValue_read_only (ping : option string) (w : World) :
  snd (Task.testGetValue ping w) = w /\
  (forall d, read_ping ping w = Some d ->
     TimespanMetric.validate (stored d w) = Normal true ->
     exists u ms n,
       stored d w = record u ms /\
       fst (Task.testGetValue ping w) = Normal (Some n) /\
       conversion_in_doubles u ms n) /\
  (forall d, read_ping ping w = Some d ->
     metricsDatabase w !! d = None ->
     fst (Task.testGetValue ping w) = Normal None) /\
  (forall calls,
     Forall (fun c => forall now, c <> CallStop now) calls ->
     fst (Task.testGetValue ping (run calls (snd (Task.testGetValue ping w))))
     = fst (Task.testGetValue ping w)).
Proof.
  assert (Hsnd : snd (Task.testGetValue ping w) = w)
    by by rewrite testGetValue_read_ping.
  split; [exact Hsnd|]. split; [|split].
  - intros d Hd Hv. rewrite testGetValue_read_ping, Hd. fold (stored d w).
    destruct (validate_true_record _ Hv) as (u & ms & E & _).
    destruct (payload_record_doubles u ms) as (n & Hn & Hc).
    exists u, ms, n. split; [done|]. split; [|done].
    rewrite (new_valid _ Hv). rewrite E. cbn. by rewrite Hn.
  - intros d Hd Hnone. rewrite testGetValue_read_ping, Hd.
    unfold getMetric. cbn [mbind option_bind]. by rewrite Hnone.
  - intros calls Hcalls. rewrite Hsnd.
    destruct (run_without_stop calls Hcalls w) as [Hp Hdb].
    by apply testGetValue_depends.
Qed.

Lemma testGetValue_read_only_witness :
  let w := mkWorld (TimespanMetricType.mk false ["metrics"] Second None) true
                   {[ "metrics" := record Second 61500 ]} [] in
  snd (Task.testGetValue None w) = w /\
  read_ping None w = Some "metrics" /\
  TimespanMetric.validate (stored "metrics" w) = Normal true /\
  (exists u ms n,
     stored "metrics" w = record u ms /\
     fst (Task.testGetValue None w) = Normal (Some n) /\
     conversion_in_doubles u ms n) /\
  read_ping (Some "events") w = Some "events" /\
  metricsDatabase w !! "events" = None /\
  fst (Task.testGetValue (Some "events") w) = Normal None /\
  fst (Task.testGetValue None
         (run [CallStart 100; CallCancel; SetUploadEnabled false]
              (snd (Task.testGetValue None w))))
  = fst (Task.testGetValue None w).
Proof.
  intros w.
  destruct (testGetValue_read_only None w) as (H1 & H2 & _ & H4).
  destruct (testGetValue_read_only (Some "events") w) as (_ & _ & H3 & _).
  assert (Hd : read_ping None w = Some "metrics") by reflexivity.
  assert (Hv : TimespanMetric.validate (stored "metrics" w) = Normal true)
    by (vm_compute; reflexivity).
  assert (He : read_ping (Some "events") w = Some "events") by reflexivity.
  assert (Hn : metricsDatabase w !! "events" = None) by (vm_compute; reflexivity).
  split; [exact H1|]. split; [exact Hd|]. split; [exact Hv|].
  split; [exact (H2 _ Hd Hv)|]. split; [exact He|]. split; [exact Hn|].
  split; [exact (H3 _ He Hn)|].
  apply H4. repeat constructor; discriminate.
Defined.

(** ** The disabled short circuit of [start] *)

(** [C10] While recording is disabled the task of [start] returns without
    touching any state, so a start time left from before is not cleared by
    [start]: after [start] (enabled), disabling, [start] (disabled), the
    metric is still running with the original start time; a disabled [stop]
    is what clears it. *)
Theorem disabled_start_keeps_startTime :
  (forall (now : Q) (w : World),
     TimespanMetricType.shouldRecord (this w) (uploadEnabled w) = false ->
     Task.start now w = w) /\
  (forall (w0 : World) (t1 t2 t3 : Q),
     TimespanMetricType.shouldRecord (this w0) (uploadEnabled w0) = true ->
     TimespanMetricType.startTime (this w0) = None ->
     let w2 := set_uploadEnabled false (start t1 w0) in
     TimespanMetricType.startTime (this (start t2 w2)) = Some t1 /\
     start t2 w2 = w2 /\
     TimespanMetricType.startTime (this (stop t3 w2)) = None).
Proof.
  split; [apply start_disabled|].
  intros w0 t1 t2 t3 Hrec Hidle. cbn zeta. unfold start, stop, launch.
  rewrite (start_idle _ _ Hrec Hidle).
  rewrite start_disabled by done.
  rewrite stop_disabled by done.
  done.
Qed.

Lemma disabled_start_keeps_startTime_witness :
  let w2 := set_uploadEnabled false (start 100 example_idle) in
  Task.start 200 example_running_disabled = example_running_disabled /\
  TimespanMetricType.startTime (this (start 200 w2)) = Some 100%Q /\
  start 200 w2 = w2 /\
  TimespanMetricType.startTime (this (stop 300 w2)) = None.
Proof.
  split.
  - apply (proj1 disabled_start_keeps_startTime 200%Q example_running_disabled).
    reflexivity.
  - apply (proj2 disabled_start_keeps_startTime example_idle 100%Q 200%Q 300%Q);
      reflexivity.
Defined.

(** * Further properties of the code *)

(** ** More on the payload conversion *)

Section PayloadFacts.
Import TimespanMetric.
Local Open Scope Q_scope.

Lemma Math_round_Qeq q q' : q == q' -> Math_round q = Math_round q'.
Proof.
  intros H. unfold Math_round. f_equal. apply Qfloor_comp. lra.
Qed.

Lemma Math_round_inject_Z k : Math_round (inject_Z k) = inject_Z k.
Proof.
  unfold Math_round. f_equal.
  apply (nearest_integer_unique (inject_Z k)); [apply Math_round_nearest|].
  split; lra.
Qed.

Lemma Math_round_le q q' : q <= q' -> Math_round q <= Math_round q'.
Proof.
  intros H. unfold Math_round. rewrite <- Zle_Qle. apply Qfloor_resp_le. lra.
Qed.


Lemma read_payload_record u ms :
  0 <= ms ->
  (m ← new (record u ms); Normal (payload m)) = Normal (payload (mk (record u ms))).
Proof. intros H. by rewrite (new_valid _ (validate_record u ms H)). Qed.

Lemma unit_millis_pos u : 0 < unit_millis u.
Proof. by destruct u. Qed.

Lemma js_div_comp a a' b : a == a' -> js_div a b == js_div a' b.
Proof.
  intros E. apply binary64_comp. unfold Qdiv. apply Qmult_comp; [exact E|reflexivity].
Qed.

Lemma js_div_nonneg a b : 0 <= a -> 0 < b -> 0 <= js_div a b.
Proof. intros Ha Hb. apply binary64_nonneg. apply Qle_shift_div_l; [done|lra]. Qed.

Lemma js_div_mono a a' b : 0 <= a -> a <= a' -> 0 < b -> js_div a b <= js_div a' b.
Proof.
  intros Ha Haa Hb. apply binary64_mono.
  - apply Qle_shift_div_l; [done|lra].
  - apply Qmult_le_compat_r; [done|]. by apply Qlt_le_weak, Qinv_lt_0_compat.
Qed.

Lemma js_mul_mono a a' b : 0 <= a -> a <= a' -> 0 < b -> js_mul a b <= js_mul a' b.
Proof.
  intros Ha Haa Hb. apply binary64_mono.
  - apply Qmult_le_0_compat; lra.
  - apply Qmult_le_compat_r; lra.
Qed.

(** Dividing [k * d] by [d] is exact when [k] is a whole number below
    [2 ^ 53]. *)
Lemma js_div_whole a d k :
  a == inject_Z (k * d) -> (0 < d)%Z -> (0 <= k < 2 ^ 53)%Z ->
  js_div a (inject_Z d) == inject_Z k.
Proof.
  intros E Hd Hk. rewrite <- (binary64_Z_exact k Hk). apply binary64_comp.
  assert (HD : 0 < inject_Z d) by (rewrite <- (Zlt_Qlt 0); done).
  apply (Qmult_inj_r _ _ (inject_Z d)); [lra|].
  rewrite Qmult_comm, Qmult_div_r by lra.
  etransitivity; [exact E|]. by rewrite inject_Z_mult.
Qed.

End PayloadFacts.

(** [X1] A duration of a whole number [k] of units is read back as [k]: for
    the units from millisecond to day, the payload of a record of [k] times
    the milliseconds of its unit is [k], as long as that number of
    milliseconds is below [2 ^ 53] (where every whole number is a double). *)
Theorem payload_whole_units (u : TimeUnit) (k : Z) :
  u <> Nanosecond -> u <> Microsecond ->
  (0 <= k)%Z ->
  (inject_Z k * unit_millis u < 9007199254740992)%Q ->
  exists p,
    (m ← TimespanMetric.new (record u (inject_Z k * unit_millis u));
     Normal (TimespanMetric.payload m)) = Normal (Some p) /\
    (p == inject_Z k)%Q.
Proof.
  intros Hn Hm Hk Hlt.
  assert (Hms : (0 <= inject_Z k * unit_millis u)%Q).
  { apply Qmult_le_0_compat; [by rewrite <- (Zle_Qle 0) | apply Qlt_le_weak, unit_millis_pos]. }
  rewrite (read_payload_record _ _ Hms), payload_record.
  eexists. split; [reflexivity|].
  assert (Hk0 : (0 <= inject_Z k)%Q) by by rewrite <- (Zle_Qle 0).
  destruct u; cbn [unit_millis] in *; try done.
  - ring.
  - assert (Hb : (0 <= k < 2 ^ 53)%Z).
    { split; [done|]. rewrite Zlt_Qlt. change (inject_Z (2 ^ 53)) with 9007199254740992%Q. lra. }
    rewrite (Math_round_Qeq _ (inject_Z k)); [by rewrite Math_round_inject_Z|].
    apply (js_div_whole _ 1000 k); [|done|done]. rewrite inject_Z_mult. reflexivity.
  - assert (Hb : (0 <= k * 60 < 2 ^ 53)%Z).
    { split; [lia|]. rewrite Zlt_Qlt, inject_Z_mult.
      change (inject_Z (2 ^ 53)) with 9007199254740992%Q. change (inject_Z 60) with 60%Q. lra. }
    rewrite (Math_round_Qeq _ (inject_Z k)); [by rewrite Math_round_inject_Z|].
    rewrite (js_div_comp _ (inject_Z (k * 60))).
    + apply (js_div_whole _ 60 k); [reflexivity|done|lia].
    + apply (js_div_whole _ 1000 (k * 60)); [|done|done].
      rewrite !inject_Z_mult. change (inject_Z 60) with 60%Q.
      change (inject_Z 1000) with 1000%Q. ring.
  - assert (Hb : (0 <= k * 3600 < 2 ^ 53)%Z).
    { split; [lia|]. rewrite Zlt_Qlt, inject_Z_mult.
      change (inject_Z (2 ^ 53)) with 9007199254740992%Q.
      change (inject_Z 3600) with 3600%Q. lra. }
    rewrite (Math_round_Qeq _ (inject_Z k)); [by rewrite Math_round_inject_Z|].
    rewrite (js_div_comp _ (inject_Z (k * 60))).
    + apply (js_div_whole _ 60 k); [reflexivity|done|lia].
    + rewrite (js_div_comp _ (inject_Z (k * 60 * 60))).
      * apply (js_div_whole _ 60 (k * 60)); [reflexivity|done|lia].
      * apply (js_div_whole _ 1000 (k * 60 * 60)); [|done|lia].
        rewrite !inject_Z_mult. change (inject_Z 60) with 60%Q.
        change (inject_Z 1000) with 1000%Q. ring.
  - assert (Hb : (0 <= k * 86400 < 2 ^ 53)%Z).
    { split; [lia|]. rewrite Zlt_Qlt, inject_Z_mult.
      change (inject_Z (2 ^ 53)) with 9007199254740992%Q.
      change (inject_Z 86400) with 86400%Q. lra. }
    rewrite (Math_round_Qeq _ (inject_Z k)); [by rewrite Math_round_inject_Z|].
    rewrite (js_div_comp _ (inject_Z (k * 24))).
    + apply (js_div_whole _ 24 k); [reflexivity|done|lia].
    + rewrite (js_div_comp _ (inject_Z (k * 24 * 60))).
      * apply (js_div_whole _ 60 (k * 24)); [reflexivity|done|lia].
      * rewrite (js_div_comp _ (inject_Z (k * 24 * 60 * 60))).
        -- apply (js_div_whole _ 60 (k * 24 * 60)); [reflexivity|done|lia].
        -- apply (js_div_whole _ 1000 (k * 24 * 60 * 60)); [|done|lia].
           rewrite !inject_Z_mult. change (inject_Z 60) with 60%Q.
           change (inject_Z 24) with 24%Q. change (inject_Z 1000) with 1000%Q. ring.
Qed.

Lemma payload_whole_units_witness :
  exists p,
    (m ← TimespanMetric.new (record Minute (inject_Z 2 * unit_millis Minute));
     Normal (TimespanMetric.payload m)) = Normal (Some p) /\
    (p == inject_Z 2)%Q.
Proof.
  apply (payload_whole_units Minute 2); [discriminate | discriminate | discriminate |].
  reflexivity.
Defined.

(** [X2] The payload grows with the stored duration: of two valid records
    with the same unit, the one with the longer timespan has the larger or
    equal payload. *)
Theorem payload_monotone (u : TimeUnit) (ms1 ms2 : Q) :
  (0 <= ms1)%Q -> (ms1 <= ms2)%Q ->
  exists p1 p2,
    (m ← TimespanMetric.new (record u ms1); Normal (TimespanMetric.payload m))
      = Normal (Some p1) /\
    (m ← TimespanMetric.new (record u ms2); Normal (TimespanMetric.payload m))
      = Normal (Some p2) /\
    (p1 <= p2)%Q.
Proof.
  intros H1 H12.
  rewrite (read_payload_record u ms1 H1), (read_payload_record u ms2) by lra.
  rewrite !payload_record. eexists _, _. split; [reflexivity|]. split; [reflexivity|].
  destruct u.
  - by apply js_mul_mono.
  - by apply js_mul_mono.
  - done.
  - apply Math_round_le. by apply js_div_mono.
  - apply Math_round_le. repeat (apply js_div_mono; [by repeat apply js_div_nonneg| |done]).
    done.
  - apply Math_round_le. repeat (apply js_div_mono; [by repeat apply js_div_nonneg| |done]).
    done.
  - apply Math_round_le. repeat (apply js_div_mono; [by repeat apply js_div_nonneg| |done]).
    done.
Qed.

Lemma payload_monotone_witness :
  exists p1 p2,
    (m ← TimespanMetric.new (record Second 1499); Normal (TimespanMetric.payload m))
      = Normal (Some p1) /\
    (m ← TimespanMetric.new (record Second 1500); Normal (TimespanMetric.payload m))
      = Normal (Some p2) /\
    (p1 <= p2)%Q.
Proof. apply (payload_monotone Second 1499 1500); discriminate. Defined.



(** ** More on the tasks *)

Section TaskFacts.
Import TimespanMetric TimespanMetricType.

(** How the merge function leaves its flag after a [transform]. *)
Lemma transform_pings_flag elapsed th ue con pings :
  (0 <= elapsed)%Q ->
  forall db flag,
    let f' := snd (transform_pings (Task.transformFn elapsed) pings
                     (mkFrame (mkWorld th ue db con) flag)) in
    (flag = true -> reportValueExists f' = true) /\
    ((exists ping, ping ∈ pings /\
        validate (default JUndefined (db !! ping)) = Normal true) ->
     reportValueExists f' = true) /\
    (NoDup pings ->
     (forall ping, ping ∈ pings ->
        validate (default JUndefined (db !! ping)) <> Normal true) ->
     reportValueExists f' = flag) /\
    (~ NoDup pings -> reportValueExists f' = true).
Proof.
  intros He. induction pings as [|p rest IH]; intros db flag; cbn zeta.
  - cbn [transform_pings snd reportValueExists]. split; [done|]. split; [|split; [done|]].
    + intros (ping & Hin & _). by apply not_elem_of_nil in Hin.
    + intros Hnd. destruct Hnd. constructor.
  - cbn [transform_pings world metricsDatabase].
    destruct (validate_total (default JUndefined (db !! p))) as [Hv|Hv].
    + rewrite (transformFn_valid _ _ _ Hv).
      unfold set_world, set_metricsDatabase, set_reportValueExists.
      cbn [TimespanMetric.get _inner world metricsDatabase this uploadEnabled
           console reportValueExists].
      destruct (IH (<[p:=default JUndefined (db !! p)]> db) true) as (IH1 & _ & _).
      split; [auto|]. split; [auto|]. split; [|auto].
      intros _ Hall. destruct (Hall p); [apply elem_of_cons; auto | done].
    + assert (Hv' : validate (default JUndefined (db !! p)) <> Normal true)
        by (rewrite Hv; discriminate).
      rewrite (transformFn_invalid _ _ _ He Hv').
      unfold set_world, set_metricsDatabase, set_reportValueExists.
      cbn [TimespanMetric.get _inner world metricsDatabase this uploadEnabled
           console reportValueExists].
      set (rec := record (timeUnit th) elapsed).
      destruct (IH (<[p:=rec]> db) flag) as (IH1 & IH2 & IH3 & IH4).
      split; [done|]. split; [|split].
      * intros (ping & [->|Hin]%elem_of_cons & Hping); [done|].
        apply IH2. exists ping. split; [done|].
        destruct (decide (p = ping)) as [->|Hne]; [done|].
        by rewrite lookup_insert_ne.
      * intros [Hp Hnd]%NoDup_cons Hall. apply IH3; [done|].
        intros ping Hin. rewrite lookup_insert_ne by (intros ->; done).
        apply Hall, elem_of_cons. auto.
      * intros Hnd. destruct (decide (p ∈ rest)) as [Hin|Hnin].
        -- apply IH2. exists p. split; [done|]. rewrite lookup_insert_eq.
           by apply validate_record.
        -- apply IH4. intros Hnd'. apply Hnd. by apply NoDup_cons.
Qed.

(** A [stop] that gets as far as the transform. *)
Lemma stop_running_full stopTime started w :
  shouldRecord (this w) (uploadEnabled w) = true ->
  startTime (this w) = Some started ->
  (started <= stopTime)%Q ->
  exists db' (flag' : bool),
    Task.stop stopTime w
    = (Normal tt,
       mkWorld (set_startTime None (this w)) (uploadEnabled w) db'
               (if flag'
                then console w ++ ["Timespan value already recorded. New value discarded."]
                else console w)%list) /\
    merged (record (timeUnit (this w)) (stopTime - started))
           (sendInPings (this w)) (metricsDatabase w) db' /\
    ((exists ping, ping ∈ sendInPings (this w) /\
        validate (stored ping w) = Normal true) -> flag' = true) /\
    (NoDup (sendInPings (this w)) ->
     (forall ping, ping ∈ sendInPings (this w) ->
        validate (stored ping w) <> Normal true) -> flag' = false) /\
    (~ NoDup (sendInPings (this w)) -> flag' = true).
Proof.
  intros Hrec Hst Hle. unfold Task.stop. rewrite Hrec, Hst. cbn [negb].
  rewrite Qlt_bool_false by lra.
  destruct w as [th ue db con]. unfold transform, set_this_startTime.
  cbn [this uploadEnabled metricsDatabase console].
  assert (He : (0 <= stopTime - started)%Q) by lra.
  pose proof (transform_pings_flag (stopTime - started) (set_startTime None th)
                ue con (sendInPings (set_startTime None th)) He db false) as Hflag.
  destruct (transform_pings_transformFn (stopTime - started) (set_startTime None th)
              ue con (sendInPings (set_startTime None th)) He db false)
    as (db' & flag' & Heq & Hm).
  cbn zeta in Hflag. rewrite Heq in Hflag |- *.
  cbn [snd reportValueExists world] in Hflag |- *.
  destruct Hflag as (_ & Hf2 & Hf3 & Hf4).
  exists db', flag'. split; [by destruct flag'|]. split; [exact Hm|].
  split; [exact Hf2 |]. split; [exact Hf3 | exact Hf4].
Qed.

(** Every way [stop] can go. *)
Lemma stop_shape stopTime w :
  exists db' con',
    Task.stop stopTime w
    = (Normal tt, mkWorld (set_startTime None (this w)) (uploadEnabled w) db' con') /\
    (db' = metricsDatabase w \/
     exists started,
       (started <= stopTime)%Q /\
       merged (record (timeUnit (this w)) (stopTime - started))
              (sendInPings (this w)) (metricsDatabase w) db') /\
    (forall line, line ∈ con' ->
       line ∈ console w \/ line = "Timespan not running." \/
       line = "Timespan value already recorded. New value discarded." \/
       (line = "Timespan was negative." /\
        exists started, startTime (this w) = Some started /\ (stopTime < started)%Q)).
Proof.
  destruct (shouldRecord (this w) (uploadEnabled w)) eqn:Hrec.
  - destruct (startTime (this w)) as [started|] eqn:Hst.
    + destruct (Qlt_le_dec stopTime started) as [Hlt|Hle].
      * rewrite (stop_negative _ _ _ Hrec Hst Hlt).
        eexists _, _. split; [reflexivity|]. split; [by left|].
        cbn [console console_error set_this_startTime].
        intros line [Hin|Hin%list_elem_of_singleton]%elem_of_app; [by left|].
        right. right. right. split; [done|]. by exists started.
      * destruct (stop_running_full _ _ _ Hrec Hst Hle) as (db' & flag' & -> & Hm & _).
        eexists _, _. split; [reflexivity|]. split; [right; by exists started|].
        intros line Hin. destruct flag'; [|by left].
        apply elem_of_app in Hin as [Hin|Hin%list_elem_of_singleton]; auto.
    + unfold Task.stop. rewrite Hrec, Hst. cbn [negb].
      destruct w as [[dis pings unit st] ue db con]. cbn in Hst. subst st.
      eexists _, _. split; [reflexivity|]. split; [by left|].
      cbn [console]. intros line [Hin|Hin%list_elem_of_singleton]%elem_of_app; auto.
  - rewrite (stop_disabled _ _ Hrec).
    eexists _, _. split; [reflexivity|]. split; [by left|]. by left.
Qed.

Lemma merged_evolves th ue db con rec ms st db' con' :
  (0 <= ms)%Q -> rec = record (timeUnit th) ms ->
  merged rec (sendInPings th) db db' ->
  evolves (mkWorld th ue db con) (mkWorld (set_startTime st th) ue db' con').
Proof.
  intros Hms -> (Ha & Hb & Hc & Hd).
  split; [done|]. split; [done|]. split; [done|].
  cbn [this metricsDatabase]. split; [exact Hb|]. split; [exact Hd|].
  intros ping.
  destruct (decide (ping ∈ sendInPings th)) as [Hin|Hnin]; [|left; by apply Hd].
  destruct (validate_total (default JUndefined (db !! ping))) as [Hv|Hv].
  - left. by apply Hb.
  - right. exists ms. split; [done|]. apply Hc; [done|]. rewrite Hv. discriminate.
Qed.

Lemma evolves_same_db th ue db con st ue' con' :
  evolves (mkWorld th ue db con) (mkWorld (set_startTime st th) ue' db con').
Proof. repeat split; auto. Qed.

Lemma evolves_refl w : evolves w w.
Proof. repeat split; auto. Qed.

Lemma evolves_trans w1 w2 w3 : evolves w1 w2 -> evolves w2 w3 -> evolves w1 w3.
Proof.
  intros (Hd1 & Hp1 & Hu1 & Hv1 & Ho1 & Hr1) (Hd2 & Hp2 & Hu2 & Hv2 & Ho2 & Hr2).
  split; [congruence|]. split; [congruence|]. split; [congruence|].
  split; [|split].
  - intros ping Hv. rewrite <- (Hv1 ping Hv). apply Hv2.
    unfold stored, getMetric in *. cbn [mbind option_bind] in *. by rewrite (Hv1 ping Hv).
  - intros ping Hnin. rewrite <- (Ho1 ping Hnin). apply Ho2. by rewrite Hp1.
  - intros ping. destruct (Hr2 ping) as [E2|(ms & Hms & E2)].
    + rewrite E2. apply Hr1.
    + right. exists ms. split; [done|]. by rewrite E2, Hu1.
Qed.

Lemma stop_evolves stopTime w : evolves w (snd (Task.stop stopTime w)).
Proof.
  destruct (stop_shape stopTime w) as (db' & con' & -> & [->|(started & Hle & Hm)] & _);
    destruct w as [th ue db con]; cbn [snd this uploadEnabled metricsDatabase] in *.
  - apply evolves_same_db.
  - eapply merged_evolves; [|reflexivity|exact Hm]. lra.
Qed.

Lemma start_evolves now w : evolves w (Task.start now w).
Proof.
  destruct (start_frame now w) as (st & con & ->).
  destruct w as [th ue db con0]. apply evolves_same_db.
Qed.

Lemma call_evolves c w : evolves w (call c w).
Proof.
  destruct c; cbn [call].
  - apply start_evolves.
  - apply stop_evolves.
  - destruct w as [th ue db con]. apply evolves_same_db.
  - destruct w as [[dis pings unit st] ue db con].
    exact (evolves_same_db (TimespanMetricType.mk dis pings unit st) ue db con st b con).
Qed.

Lemma run_evolves calls w : evolves w (run calls w).
Proof.
  revert w. induction calls as [|c rest IH]; intros w; cbn [run].
  - apply evolves_refl.
  - eapply evolves_trans; [apply call_evolves | apply IH].
Qed.

End TaskFacts.

(** [X4] For a metric whose unit is one of the seven members of [TimeUnit],
    as the field is declared, the task of [stop] completes normally in every
    state and leaves the metric idle, with its configuration and the
    collection flag as they were.  The record the merge function builds is
    accepted by the constructor exactly when the elapsed time is not
    negative, which the guard of [stop] ensures, and the unit string is one
    of the seven; with any other unit string the constructor throws. *)
Theorem stop_completes_idle (stopTime : Q) (w : World) :
  fst (Task.stop stopTime w) = Normal tt /\
  this (snd (Task.stop stopTime w)) = TimespanMetricType.set_startTime None (this w) /\
  uploadEnabled (snd (Task.stop stopTime w)) = uploadEnabled w /\
  (forall (unit : string) (elapsed : Q),
     (exists m,
        TimespanMetric.new
          (JObject {[ "timespan" := JNumber elapsed; "timeUnit" := JString unit ]})
        = Normal m) <->
     (0 <= elapsed)%Q /\ exists u, unit = TimeUnit_value u).
Proof.
  destruct (stop_shape stopTime w) as (db' & con' & -> & _).
  split; [done|]. split; [done|]. split; [done|].
  intros unit elapsed. split.
  - intros (m & Hm). apply new_Normal in Hm as [Hv _].
    destruct (validate_true_record _ Hv) as (u & ms & E & Hms).
    pose proof (f_equal (js_get "timespan") E) as Ets.
    pose proof (f_equal (js_get "timeUnit") E) as Etu.
    rewrite js_get_record_timespan in Ets. rewrite js_get_record_timeUnit in Etu.
    cbn [js_get] in Ets, Etu. rewrite lookup_insert_eq in Ets.
    rewrite lookup_insert_ne, lookup_singleton_eq in Etu by done.
    cbn [default] in Ets, Etu. injection Ets as ->. injection Etu as ->.
    split; [done|]. by exists u.
  - intros (He & u & ->). eexists. apply new_valid.
    by apply (validate_record u elapsed).
Qed.

Lemma stop_completes_idle_witness :
  (exists m,
     TimespanMetric.new
       (JObject {[ "timespan" := JNumber 240; "timeUnit" := JString "second" ]})
     = Normal m) /\
  ~ (exists m,
       TimespanMetric.new
         (JObject {[ "timespan" := JNumber 240; "timeUnit" := JString "weeks" ]})
       = Normal m).
Proof.
  pose proof (stop_completes_idle 0 example_idle) as (_ & _ & _ & H).
  split.
  - apply (proj2 (H "second" 240%Q)). split; [discriminate|]. by exists Second.
  - intros Hm. apply (proj1 (H "weeks" 240%Q)) in Hm as (_ & u & Hu).
    destruct u; discriminate Hu.
Defined.



(** [X6] A [stop] that records reports that a value was already recorded as
    soon as one destination of the metric already holds a valid record; when
    the destinations are pairwise distinct and none holds a valid record, it
    reports nothing; when a destination is listed twice it reports in any
    case, the second visit finding the record of the first. *)
Theorem stop_reports_already_recorded (stopTime started : Q) (w : World) :
  TimespanMetricType.shouldRecord (this w) (uploadEnabled w) = true ->
  TimespanMetricType.startTime (this w) = Some started ->
  (started <= stopTime)%Q ->
  ((exists ping, ping ∈ TimespanMetricType.sendInPings (this w) /\
      TimespanMetric.validate (stored ping w) = Normal true) ->
   console (stop stopTime w)
   = (console w ++ ["Timespan value already recorded. New value discarded."])%list) /\
  (NoDup (TimespanMetricType.sendInPings (this w)) ->
   (forall ping, ping ∈ TimespanMetricType.sendInPings (this w) ->
      TimespanMetric.validate (stored ping w) <> Normal true) ->
   console (stop stopTime w) = console w) /\
  (~ NoDup (TimespanMetricType.sendInPings (this w)) ->
   console (stop stopTime w)
   = (console w ++ ["Timespan value already recorded. New value discarded."])%list).
Proof.
  intros Hrec Hst Hle. unfold stop, launch.
  destruct (stop_running_full _ _ _ Hrec Hst Hle)
    as (db' & flag' & -> & _ & H1 & H2 & H3).
  cbn [snd console]. split; [|split].
  - intros Hex. by rewrite (H1 Hex).
  - intros Hnd Hall. by rewrite (H2 Hnd Hall).
  - intros Hnd. by rewrite (H3 Hnd).
Qed.

Lemma stop_reports_already_recorded_witness :
  console (stop 900 (start 500 (stop 340 (start 100 example_idle))))
  = ["Timespan value already recorded. New value discarded."] /\
  console (stop 340 example_running) = [].
Proof.
  split.
  - apply (proj1 (stop_reports_already_recorded 900 500
                    (start 500 (stop 340 (start 100 example_idle)))
                    eq_refl eq_refl ltac:(discriminate))).
    exists "metrics". split; [apply list_elem_of_In; vm_compute; auto|].
    vm_compute. reflexivity.
  - apply (proj1 (proj2 (stop_reports_already_recorded 340 100 example_running
                    eq_refl eq_refl ltac:(discriminate)))).
    + apply (bool_decide_unpack _). vm_compute. exact I.
    + intros ping _. vm_compute. discriminate.
Defined.

(** [X7] [start; cancel; stop] records nothing: the database is as before and
    the metric is idle; on an idle, recording metric the run only adds the
    report that the timespan was not running. *)
Theorem start_cancel_stop (t1 t2 : Q) (w : World) :
  metricsDatabase (stop t2 (cancel (start t1 w))) = metricsDatabase w /\
  TimespanMetricType.startTime (this (stop t2 (cancel (start t1 w)))) = None /\
  (TimespanMetricType.shouldRecord (this w) (uploadEnabled w) = true ->
   TimespanMetricType.startTime (this w) = None ->
   stop t2 (cancel (start t1 w)) = console_error "Timespan not running." w).
Proof.
  unfold stop, cancel, start, launch, Task.cancel.
  destruct (start_frame t1 w) as (st & con & E).
  destruct w as [[dis pings unit st0] ue db con0].
  cbn [this uploadEnabled metricsDatabase TimespanMetricType.set_startTime] in E.
  split; [|split].
  - rewrite E. unfold Task.stop, set_this_startTime, TimespanMetricType.set_startTime.
    cbn. by destruct (negb _).
  - by destruct (stop_shape t2 (set_this_startTime None (Task.start t1
         (mkWorld (TimespanMetricType.mk dis pings unit st0) ue db con0))))
      as (db' & con' & -> & _).
  - cbn [this uploadEnabled TimespanMetricType.startTime]. intros Hrec ->.
    rewrite start_idle by done.
    unfold Task.stop, set_this_startTime, TimespanMetricType.set_startTime.
    cbn [this uploadEnabled metricsDatabase console TimespanMetricType.disabled
         TimespanMetricType.sendInPings TimespanMetricType.timeUnit
         TimespanMetricType.startTime].
    cbn [this uploadEnabled] in Hrec. by rewrite Hrec.
Qed.

Lemma start_cancel_stop_witness :
  stop 340 (cancel (start 100 example_idle))
  = console_error "Timespan not running." example_idle.
Proof.
  apply (proj2 (proj2 (start_cancel_stop 100 340 example_idle))); reflexivity.
Defined.

(** ** Switching collection off and on *)



(** ** Reading back, continued *)

Lemma start_stop_idle (w : World) (t1 t2 : Q) :
  TimespanMetricType.shouldRecord (this w) (uploadEnabled w) = true ->
  TimespanMetricType.startTime (this w) = None ->
  (t1 <= t2)%Q ->
  (forall ping,
     ping ∈ TimespanMetricType.sendInPings (this w) ->
     TimespanMetric.validate (stored ping w) <> Normal true ->
     stored ping (stop t2 (start t1 w))
     = record (TimespanMetricType.timeUnit (this w)) (t2 - t1)) /\
  TimespanMetricType.sendInPings (this (stop t2 (start t1 w)))
  = TimespanMetricType.sendInPings (this w).
Proof.
  intros Hrec Hidle Hle. unfold stop, start, launch.
  rewrite (start_idle t1 w Hrec Hidle).
  destruct w as [[dis pings unit st] ue db con].
  unfold set_this_startTime, TimespanMetricType.set_startTime.
  cbn [this uploadEnabled metricsDatabase console TimespanMetricType.disabled
       TimespanMetricType.sendInPings TimespanMetricType.timeUnit] in *.
  edestruct (stop_running t2 t1) as (db' & con' & -> & _ & _ & Hc & _);
    [| reflexivity | exact Hle |]; [done|].
  split; [|done]. intros ping Hin Hinv.
  unfold stored, getMetric. cbn [snd mbind option_bind metricsDatabase].
  by rewrite (Hc ping Hin Hinv).
Qed.

(** [X9] End to end, for clock readings that are whole milliseconds below
    [2 ^ 53]: on an idle, recording metric whose first destination holds no
    valid record, [start] at [t1] and [stop] at [t2] store the elapsed
    [t2 - t1], which is the difference the code computes in doubles, and
    [testGetValue] without argument returns it converted to the metric's
    unit as the payload conversion computes in doubles. *)
Theorem start_stop_read_back (w : World) (z1 z2 : Z) (ping : string) (rest : list string) :
  TimespanMetricType.shouldRecord (this w) (uploadEnabled w) = true ->
  TimespanMetricType.startTime (this w) = None ->
  TimespanMetricType.sendInPings (this w) = ping :: rest ->
  TimespanMetric.validate (stored ping w) <> Normal true ->
  (0 <= z1 <= z2)%Z -> (z2 < 2 ^ 53)%Z ->
  let t1 := inject_Z z1 in
  let t2 := inject_Z z2 in
  (binary64 (t2 - t1) == t2 - t1)%Q /\
  stored ping (stop t2 (start t1 w))
  = record (TimespanMetricType.timeUnit (this w)) (t2 - t1) /\
  exists n,
    fst (Task.testGetValue None (stop t2 (start t1 w))) = Normal (Some n) /\
    conversion_in_doubles (TimespanMetricType.timeUnit (this w)) (t2 - t1) n.
Proof.
  intros Hrec Hidle Hpings Hinv Hz Hz2 t1 t2.
  assert (Hle : (t1 <= t2)%Q) by (subst t1 t2; rewrite <- Zle_Qle; lia).
  destruct (start_stop_idle w t1 t2 Hrec Hidle Hle) as (Hst & Hcfg).
  assert (Hin : ping ∈ TimespanMetricType.sendInPings (this w))
    by (rewrite Hpings; apply elem_of_cons; auto).
  split; [|split; [by apply Hst|]].
  - assert (E : (t2 - t1 == inject_Z (z2 - z1))%Q).
    { subst t1 t2. unfold Z.sub, Qminus. by rewrite inject_Z_plus, inject_Z_opp. }
    etransitivity; [apply (binary64_comp _ _ E)|].
    etransitivity; [apply binary64_Z_exact; lia|]. by symmetry.
  - destruct (payload_record_doubles (TimespanMetricType.timeUnit (this w)) (t2 - t1))
      as (n & Hn & Hconv).
    exists n. split; [|done].
    unfold Task.testGetValue. rewrite Hcfg, Hpings. cbn [head].
    fold (stored ping (stop t2 (start t1 w))).
    rewrite (Hst ping Hin Hinv).
    cbn [truthy record].
    fold (record (TimespanMetricType.timeUnit (this w)) (t2 - t1)).
    rewrite new_valid by (apply validate_record; lra).
    cbn [mbind Completion_bind fst]. by rewrite Hn.
Qed.

Lemma start_stop_read_back_witness :
  (binary64 (inject_Z 340 - inject_Z 100) == inject_Z 340 - inject_Z 100)%Q /\
  stored "metrics" (stop (inject_Z 340) (start (inject_Z 100) example_idle))
  = record Millisecond (inject_Z 340 - inject_Z 100) /\
  exists n,
    fst (Task.testGetValue None (stop (inject_Z 340) (start (inject_Z 100) example_idle)))
    = Normal (Some n) /\
    conversion_in_doubles Millisecond (inject_Z 340 - inject_Z 100) n.
Proof.
  apply (start_stop_read_back example_idle 100 340 "metrics" ["baseline"]).
  - reflexivity.
  - reflexivity.
  - reflexivity.
  - vm_compute. discriminate.
  - lia.
  - reflexivity.
Defined.

(** ** Programs of calls *)

(** [X11] A valid stored record is never changed again: whatever calls of
    [start], [stop] and [cancel] follow, and however collection is switched
    on and off, the destination keeps the record. *)
Theorem run_keeps_valid_records (calls : list Call) (w : World) (ping : string) :
  TimespanMetric.validate (stored ping w) = Normal true ->
  stored ping (run calls w) = stored ping w.
Proof.
  intros Hv. destruct (run_evolves calls w) as (_ & _ & _ & Hkeep & _).
  unfold stored, getMetric. cbn [mbind option_bind]. by rewrite (Hkeep ping Hv).
Qed.

Lemma run_keeps_valid_records_witness :
  stored "metrics"
    (run [CallStart 500; SetUploadEnabled false; CallStop 600; SetUploadEnabled true;
          CallStart 700; CallCancel; CallStart 800; CallStop 900]
         (stop 340 (start 100 example_idle)))
  = stored "metrics" (stop 340 (start 100 example_idle)).
Proof.
  apply (run_keeps_valid_records _ (stop 340 (start 100 example_idle)) "metrics").
  vm_compute. reflexivity.
Defined.

(** [X12] No program of calls changes the configuration of the metric (its
    [disabled] flag, its destinations, its unit) or the stored value of a
    destination the metric is not sent in. *)
Theorem run_frame (calls : list Call) (w : World) :
  TimespanMetricType.disabled (this (run calls w)) = TimespanMetricType.disabled (this w) /\
  TimespanMetricType.sendInPings (this (run calls w))
  = TimespanMetricType.sendInPings (this w) /\
  TimespanMetricType.timeUnit (this (run calls w)) = TimespanMetricType.timeUnit (this w) /\
  (forall ping, ping ∉ TimespanMetricType.sendInPings (this w) ->
     metricsDatabase (run calls w) !! ping = metricsDatabase w !! ping).
Proof.
  destruct (run_evolves calls w) as (H1 & H2 & H3 & _ & H5 & _). done.
Qed.

Lemma run_frame_witness :
  metricsDatabase (run [CallStart 100; CallStop 340] example_idle) !! "events"
  = metricsDatabase example_idle !! "events".
Proof.
  apply (proj2 (proj2 (proj2 (run_frame [CallStart 100; CallStop 340] example_idle)))).
  intros Hin%list_elem_of_In. simpl in Hin.
  destruct Hin as [H|[H|[]]]; discriminate H.
Defined.

(** [X13] Whatever a program of calls stores is a valid record of the
    metric's unit: each stored value is either the one from before or such a
    record.  Hence a database in which every stored value is valid stays
    so. *)
Theorem run_stores_valid_records (calls : list Call) (w : World) :
  (forall ping,
     metricsDatabase (run calls w) !! ping = metricsDatabase w !! ping \/
     exists ms, (0 <= ms)%Q /\
       metricsDatabase (run calls w) !! ping
       = Some (record (TimespanMetricType.timeUnit (this w)) ms)) /\
  ((forall ping v, metricsDatabase w !! ping = Some v ->
      TimespanMetric.validate v = Normal true) ->
   forall ping v, metricsDatabase (run calls w) !! ping = Some v ->
     TimespanMetric.validate v = Normal true).
Proof.
  destruct (run_evolves calls w) as (_ & _ & _ & _ & _ & Hrec).
  split; [exact Hrec|].
  intros Hall ping v Hv. destruct (Hrec ping) as [E|(ms & Hms & E)].
  - apply (Hall ping). by rewrite <- E.
  - rewrite E in Hv. injection Hv as <-. by apply validate_record.
Qed.

Lemma run_stores_valid_records_witness :
  metricsDatabase (run [CallStart 100; CallStop 340; CallStart 500; CallStop 900]
                       example_idle) !! "metrics"
  = Some (record Millisecond 240) /\
  TimespanMetric.validate (record Millisecond 240) = Normal true.
Proof.
  assert (Hl : metricsDatabase
                 (run [CallStart 100; CallStop 340; CallStart 500; CallStop 900]
                      example_idle) !! "metrics"
               = Some (record Millisecond 240)) by (vm_compute; reflexivity).
  split; [exact Hl|].
  refine (proj2 (run_stores_valid_records
                   [CallStart 100; CallStop 340; CallStart 500; CallStop 900]
                   example_idle) _ "metrics" _ Hl).
  intros ping v H. vm_compute in H. discriminate H.
Defined.

Section Programs.
Import TimespanMetricType.

Lemma call_disabled_metric c w :
  disabled (this w) = true ->
  disabled (this (call c w)) = true /\
  metricsDatabase (call c w) = metricsDatabase w /\
  console (call c w) = console w.
Proof.
  intros Hdis.
  assert (Hrec : forall ue, shouldRecord (this w) ue = false).
  { intros ue. unfold shouldRecord. rewrite Hdis. apply andb_false_r. }
  destruct c; cbn [call]; unfold start, stop, cancel, launch, Task.cancel.
  - by rewrite start_disabled.
  - by rewrite stop_disabled.
  - done.
  - done.
Qed.

Lemma start_shape now w :
  (forall line, line ∈ console (Task.start now w) ->
     line ∈ console w \/ line = "Timespan already started.") /\
  (forall s, startTime (this (Task.start now w)) = Some s ->
     startTime (this w) = Some s \/ s = now).
Proof.
  unfold Task.start. destruct (negb (shouldRecord _ _)); [split; auto|].
  destruct (startTime (this w)) as [s0|] eqn:Hst; cbn [negb isUndefined].
  - cbn [console console_error this]. split; [|intros s Hs; left; congruence].
    intros line [Hin|Hin%list_elem_of_singleton]%elem_of_app; auto.
  - cbn [console set_this_startTime this set_startTime startTime]. split; [auto|].
    intros s [= <-]. by right.
Qed.

Lemma run_no_negative calls :
  forall prev w,
    clock_monotone prev calls ->
    (forall s, startTime (this w) = Some s -> (s <= prev)%Q) ->
    "Timespan was negative." ∈ console (run calls w) ->
    "Timespan was negative." ∈ console w.
Proof.
  induction calls as [|c rest IH]; intros prev w Hclock Hinv; cbn [run]; [done|].
  destruct c as [now|now| |b]; cbn [clock_monotone call] in *.
  - destruct Hclock as [Hle Hclock]. intros Hin.
    destruct (start_shape now w) as [Hcon Hst].
    assert (Hinv' : forall s, startTime (this (start now w)) = Some s -> (s <= now)%Q).
    { intros s [Hs| ->]%Hst; [|lra]. specialize (Hinv s Hs). lra. }
    destruct (Hcon _ (IH now (start now w) Hclock Hinv' Hin)) as [H|H];
      [done|discriminate H].
  - destruct Hclock as [Hle Hclock]. intros Hin.
    unfold stop, launch in *.
    destruct (stop_shape now w) as (db' & con' & E & _ & Hcon).
    rewrite E in Hin. cbn [snd] in Hin.
    apply IH with (prev := now) in Hin; [|done|done].
    cbn [console] in Hin.
    destruct (Hcon _ Hin) as [H|[H|[H|[_ (s & Hs & Hlt)]]]];
      [done | discriminate H | discriminate H |].
    specialize (Hinv s Hs). lra.
  - intros Hin. by apply IH with (prev := prev) in Hin.
  - intros Hin. by apply IH with (prev := prev) in Hin.
Qed.

End Programs.

(** [X14] A metric that is itself disabled never records and never reports:
    after any program of calls, with collection on or off, the database and
    the error log are as before. *)
Theorem run_disabled_metric_inert (calls : list Call) (w : World) :
  TimespanMetricType.disabled (this w) = true ->
  metricsDatabase (run calls w) = metricsDatabase w /\
  console (run calls w) = console w.
Proof.
  revert w. induction calls as [|c rest IH]; intros w Hdis; cbn [run]; [done|].
  destruct (call_disabled_metric c w Hdis) as (Hdis' & Hdb & Hcon).
  destruct (IH _ Hdis') as [-> ->]. done.
Qed.

Lemma run_disabled_metric_inert_witness :
  let w := mkWorld (TimespanMetricType.mk true ["metrics"] Second None) true ∅ [] in
  metricsDatabase (run [CallStart 100; CallStart 200; CallStop 340; CallStop 400] w)
  = metricsDatabase w /\
  console (run [CallStart 100; CallStart 200; CallStop 340; CallStop 400] w) = console w.
Proof.
  intros w. apply (run_disabled_metric_inert _ w). reflexivity.
Defined.

(** [X15] With a clock that never goes back the negative-timespan guard never
    fires: if the readings taken by the calls of a program do not decrease,
    and a pending start time is not later than the first of them, the program
    adds no report of a negative timespan. *)
Theorem run_monotone_clock_no_negative (calls : list Call) (prev : Q) (w : World) :
  clock_monotone prev calls ->
  (forall s, TimespanMetricType.startTime (this w) = Some s -> (s <= prev)%Q) ->
  "Timespan was negative." ∉ console w ->
  "Timespan was negative." ∉ console (run calls w).
Proof.
  intros Hclock Hinv Hnot Hin. apply Hnot. by eapply run_no_negative.
Qed.

Lemma run_monotone_clock_no_negative_witness :
  "Timespan was negative."
    ∉ console (run [CallStart 100; CallStart 150; CallStop 340; CallStop 400;
                    SetUploadEnabled false; CallStart 500; CallCancel] example_idle).
Proof.
  apply (run_monotone_clock_no_negative _ 0 example_idle).
  - simpl. repeat split; discriminate.
  - intros s H. discriminate H.
  - intros H%list_elem_of_In. exact H.
Defined.

(** ** Valid values and object literals *)

(** [X16] The values the validator accepts are exactly the object literals
    [stop] writes, with a unit and a timespan that is not negative; the unit
    and the timespan of a valid value are determined by it, and reading the
    two properties at their types gives them back. *)
Theorem valid_values_are_records (v : JSValue) :
  (TimespanMetric.validate v = Normal true <->
   exists u ms, (0 <= ms)%Q /\ v = record u ms) /\
  (forall u ms u' ms', v = record u ms -> v = record u' ms' -> u = u' /\ ms = ms') /\
  (forall u ms, v = record u ms ->
     as_TimeUnit (js_get "timeUnit" v) = Some u /\
     as_number (js_get "timespan" v) = Some ms).
Proof.
  assert (Hread : forall u ms, v = record u ms ->
            as_TimeUnit (js_get "timeUnit" v) = Some u /\
            as_number (js_get "timespan" v) = Some ms).
  { intros u ms ->.
    by rewrite js_get_record_timeUnit, js_get_record_timespan, as_TimeUnit_value. }
  split; [|split].
  - split.
    + intros (u & ms & -> & Hms)%validate_true_record. by exists u, ms.
    + intros (u & ms & Hms & ->). by apply validate_record.
  - intros u ms u' ms' E E'.
    destruct (Hread u ms E) as [Hu Hms]. destruct (Hread u' ms' E') as [Hu' Hms'].
    split; congruence.
  - exact Hread.
Qed.

Lemma valid_values_are_records_witness :
  TimespanMetric.validate (record Day 86400000) = Normal true /\
  as_TimeUnit (js_get "timeUnit" (record Day 86400000)) = Some Day /\
  as_number (js_get "timespan" (record Day 86400000)) = Some 86400000%Q.
Proof.
  split.
  - apply (proj2 (proj1 (valid_values_are_records (record Day 86400000)))).
    exists Day, 86400000%Q. split; [discriminate | reflexivity].
  - apply (proj2 (proj2 (valid_values_are_records (record Day 86400000)))).
    reflexivity.
Defined.
